(** * fabric-connector: the HTTP gateway of [api.py]

    A shallow embedding of [src/api.py]: the request handlers [fabric],
    [get_models], [set_model], [yt] and [get_patterns], the module-level
    platform check and the server start, together with the Python
    primitives they rely on (string methods, [shlex.quote], local variables
    that may be unbound, [tempfile.NamedTemporaryFile], [os.unlink]).

    Handlers are written in a small effect language, [prog], whose
    constructors are the operations the handlers perform on the host.  Two
    semantics are given: [interp] runs one handler to completion against a
    deterministic host, and [sys_step] interleaves several handlers at
    their [await] points, as the asyncio event loop does. *)

From Stdlib Require Import ZArith String Ascii List Bool Lia.
From stdpp Require Import base option list strings gmap.
Import ListNotations.

Set Warnings "-register-all".

Local Open Scope string_scope.
Local Open Scope Z_scope.
Local Open Scope list_scope.

(** ** Python strings

    A [string] is read as a sequence of code points below 256. *)

Module PyStr.

(** [sub in s] *)
Fixpoint contains (sub s : string) : bool :=
  String.prefix sub s ||
  match s with
  | EmptyString => false
  | String _ s' => contains sub s'
  end.

(** [str.isspace] on one code point below 256. *)
Definition isspace (c : ascii) : bool :=
  let n := nat_of_ascii c in
  ((9 <=? n) && (n <=? 13))%nat || ((28 <=? n) && (n <=? 32))%nat
  || (n =? 133)%nat || (n =? 160)%nat.

Fixpoint lstrip (s : string) : string :=
  match s with
  | String c s' => if isspace c then lstrip s' else s
  | EmptyString => EmptyString
  end.

Fixpoint rstrip (s : string) : string :=
  match s with
  | String c s' =>
      match rstrip s' with
      | EmptyString => if isspace c then EmptyString else String c EmptyString
      | r => String c r
      end
  | EmptyString => EmptyString
  end.

(** [s.strip()] *)
Definition strip (s : string) : string := rstrip (lstrip s).

(** Truth value of a string: non-empty. *)
Definition truthy (s : string) : bool :=
  match s with EmptyString => false | _ => true end.

(** [s.replace(old, new)] for a non-empty [old]: non-overlapping
    occurrences, leftmost first.  [skip] counts the characters of a
    matched occurrence still to be dropped. *)
Fixpoint replace_from (old new s : string) (skip : nat) : string :=
  match s with
  | EmptyString => EmptyString
  | String c s' =>
      match skip with
      | S k => replace_from old new s' k
      | O =>
          if String.prefix old s
          then new +:+ replace_from old new s' (String.length old - 1)
          else String c (replace_from old new s' O)
      end
  end.

Definition replace (old new s : string) : string := replace_from old new s O.

(** [sep.join(l)] *)
Definition join (sep : string) (l : list string) : string := String.concat sep l.

Definition all_chars (p : ascii -> bool) (s : string) : bool :=
  forallb p (list_ascii_of_string s).

End PyStr.

(** ** Python values exchanged with the tools and returned as JSON *)

Inductive pyval : Type :=
| VNone
| VBool (b : bool)
| VInt (z : Z)
| VStr (s : string)
| VList (l : list pyval)
| VDict (d : list (string * pyval)).

(** A dict keeps its items in insertion order; a key occurs once. *)
Fixpoint dict_get (k : string) (d : list (string * pyval)) : option pyval :=
  match d with
  | [] => None
  | (k', v) :: d' => if String.eqb k k' then Some v else dict_get k d'
  end.

(** ** Exceptions *)

Inductive exn : Type :=
| CalledProcessError (returncode : Z) (cmd : string) (stderr : string)
| HTTPException (status_code : Z) (detail : string)
| UnboundLocalError (name : string)
| TypeError
| AttributeError
| KeyError (key : string)
| FileExistsError
| FileNotFoundError (path : string)
| SystemExit (code : Z).

(** [NameError] is the base class of [UnboundLocalError]. *)
Definition is_NameError (e : exn) : bool :=
  match e with UnboundLocalError _ => true | _ => false end.

Definition is_HTTPException (e : exn) : bool :=
  match e with HTTPException _ _ => true | _ => false end.

(** ** The model-listing transform of [get_models] *)

Module Models.

Definition headers : list string :=
  ["GPT Models:"; "Local Models:"; "Claude Models:"; "Google Models:"].

(** ['name' in item] *)
Definition has_name (item : pyval) : exn + bool :=
  match item with
  | VStr s => inr (PyStr.contains "name" s)
  | VDict d => inr (match dict_get "name" d with Some _ => true | None => false end)
  | VList l =>
      inr (existsb (fun x => match x with VStr s => String.eqb s "name" | _ => false end) l)
  | VNone | VBool _ | VInt _ => inl TypeError
  end.

(** [item['name']] *)
Definition get_name (item : pyval) : exn + pyval :=
  match item with
  | VDict d =>
      match dict_get "name" d with Some v => inr v | None => inl (KeyError "name") end
  | _ => inl TypeError
  end.

(** [v not in ['GPT Models:', ...]] *)
Definition not_in_headers (v : pyval) : bool :=
  match v with
  | VStr s => negb (existsb (String.eqb s) headers)
  | _ => true
  end.

(** Truth value of [v.strip()] *)
Definition strip_truthy (v : pyval) : exn + bool :=
  match v with
  | VStr s => inr (PyStr.truthy (PyStr.strip s))
  | _ => inl AttributeError
  end.

(** The condition of the comprehension, with the short-circuit of [and]. *)
Definition keep (item : pyval) : exn + bool :=
  match has_name item with
  | inl e => inl e
  | inr false => inr false
  | inr true =>
      match get_name item with
      | inl e => inl e
      | inr v =>
          if not_in_headers v then
            match get_name item with
            | inl e => inl e
            | inr v' => strip_truthy v'
            end
          else inr false
      end
  end.

(** [[{"name": item['name']} for item in result if ...]] *)
Fixpoint filtered_models (result : list pyval) : exn + list pyval :=
  match result with
  | [] => inr []
  | item :: rest =>
      match keep item with
      | inl e => inl e
      | inr false => filtered_models rest
      | inr true =>
          match get_name item with
          | inl e => inl e
          | inr v =>
              match filtered_models rest with
              | inl e => inl e
              | inr out => inr (VDict [("name", v)] :: out)
              end
          end
      end
  end.

(** *** The transform in the words of the specification

    Section-header strings and empty or header records are dropped; the
    model-name records that remain are returned in the order given. *)

Definition record_name (item : pyval) : option string :=
  match item with
  | VDict d => match dict_get "name" d with Some (VStr s) => Some s | _ => None end
  | _ => None
  end.

Definition is_header (s : string) : bool := existsb (String.eqb s) headers.
Definition is_blank (s : string) : bool := negb (PyStr.truthy (PyStr.strip s)).

Definition model_names_spec (result : list pyval) : list pyval :=
  map (fun s => VDict [("name", VStr s)])
      (List.filter (fun s => negb (is_header s) && negb (is_blank s))
              (omap record_name result)).

(** Entries the transform is defined on: a header string that does not
    contain [name], or a record whose [name], when present, is a string. *)
Definition entry_ok (item : pyval) : Prop :=
  match item with
  | VStr s => PyStr.contains "name" s = false
  | VDict d =>
      match dict_get "name" d with
      | Some (VStr _) | None => True
      | Some _ => False
      end
  | _ => False
  end.

(** The input of the specification's example. *)
Definition example_input : list pyval :=
  [ VStr "GPT Models:"; VDict [("name", VStr "gpt-4")]; VDict [("name", VStr EmptyString)];
    VDict [("name", VStr "claude-3")]; VStr "Claude Models:" ].

End Models.


(** ** The effect language of the handlers *)

(** What a finished child process leaves behind. *)
Record CompletedProcess : Type := {
  returncode : Z;
  stdout : string;
  stderr : string
}.

Inductive level : Type := INFO | WARNING | ERROR.

(** A handler is a tree of host operations.  [Spawn] is the only point at
    which a handler is suspended ([await]); the other operations run to
    completion before anything else does. *)
Inductive prog (A : Type) : Type :=
| Ret (a : A)
| Raise (e : exn)
| Spawn (argv : list string) (k : CompletedProcess -> prog A)
| ExecFabric (arg : string) (k : pyval -> prog A)
| NamedTemporaryFile (data : string) (k : exn + string -> prog A)
| Unlink (path : string) (k : exn + unit -> prog A)
| Logging (lvl : level) (msg : string) (k : prog A)
| Print (msg : string) (k : prog A)
| Listen (addr : string) (port : Z) (k : prog A).

Arguments Ret {A} a.
Arguments Raise {A} e.
Arguments Spawn {A} argv k.
Arguments ExecFabric {A} arg k.
Arguments NamedTemporaryFile {A} data k.
Arguments Unlink {A} path k.
Arguments Logging {A} lvl msg k.
Arguments Print {A} msg k.
Arguments Listen {A} addr port k.

Fixpoint bind {A B : Type} (p : prog A) (f : A -> prog B) : prog B :=
  match p with
  | Ret a => f a
  | Raise e => Raise e
  | Spawn argv k => Spawn argv (fun cp => bind (k cp) f)
  | ExecFabric arg k => ExecFabric arg (fun v => bind (k v) f)
  | NamedTemporaryFile data k => NamedTemporaryFile data (fun r => bind (k r) f)
  | Unlink path k => Unlink path (fun r => bind (k r) f)
  | Logging lvl msg k => Logging lvl msg (bind k f)
  | Print msg k => Print msg (bind k f)
  | Listen addr port k => Listen addr port (bind k f)
  end.

Notation "'let*' x ':=' p 'in' q" := (bind p (fun x => q))
  (at level 10, x name, p at level 100, q at level 200).

(** [try: body  except ...: handler]; [handler e] is [None] when no
    [except] clause matches [e], which then propagates. *)
Fixpoint try_except {A : Type} (body : prog A) (handler : exn -> option (prog A))
  : prog A :=
  match body with
  | Ret a => Ret a
  | Raise e => match handler e with Some h => h | None => Raise e end
  | Spawn argv k => Spawn argv (fun cp => try_except (k cp) handler)
  | ExecFabric arg k => ExecFabric arg (fun v => try_except (k v) handler)
  | NamedTemporaryFile data k =>
      NamedTemporaryFile data (fun r => try_except (k r) handler)
  | Unlink path k => Unlink path (fun r => try_except (k r) handler)
  | Logging lvl msg k => Logging lvl msg (try_except k handler)
  | Print msg k => Print msg (try_except k handler)
  | Listen addr port k => Listen addr port (try_except k handler)
  end.

Definition of_result {A : Type} (r : exn + A) : prog A :=
  match r with inl e => Raise e | inr a => Ret a end.

(** [with tempfile.NamedTemporaryFile(mode='w', delete=False) as f:
        f.write(data); path = f.name] *)
Definition named_temporary_file (data : string) : prog string :=
  NamedTemporaryFile data of_result.

(** [os.unlink(path)] *)
Definition os_unlink (path : string) : prog unit := Unlink path of_result.

Definition logging_info (msg : string) : prog unit := Logging INFO msg (Ret tt).
Definition logging_error (msg : string) : prog unit := Logging ERROR msg (Ret tt).

(** Modelled from the spec: [execute_fabric_command] of [proxy.py], which
    is not among the sources.  Sections 4.1 and 6: it hands back what the
    tool listed, a list or a value of another shape, and the handlers only
    look at that shape.  The value is the host's.  How the tool is run and
    whether the call can raise the specification does not say; here the
    call returns its value, spawns nothing through [run_command] and
    leaves the files alone. *)
Definition execute_fabric_command (arg : string) : prog pyval := ExecFabric arg Ret.

(** Reading a local variable that is bound on some paths only. *)
Definition local {A : Type} (name : string) (v : option A) : prog A :=
  match v with
  | Some a => Ret a
  | None => Raise (UnboundLocalError name)
  end.

(** ** [shlex.quote], behind [sanitize_for_shell] *)

Module Shlex.

(** The characters outside [[^\w@%+=:,./-]] with [re.ASCII]. *)
Definition safe_char (c : ascii) : bool :=
  let n := nat_of_ascii c in
  ((48 <=? n) && (n <=? 57))%nat || ((65 <=? n) && (n <=? 90))%nat
  || ((97 <=? n) && (n <=? 122))%nat
  || existsb (Ascii.eqb c) (list_ascii_of_string "_@%+=:,./-").

Definition squote : string := String "'"%char EmptyString.
Definition dquote : string := String "034"%char EmptyString.

Definition quote (s : string) : string :=
  if negb (PyStr.truthy s) then squote +:+ squote
  else if PyStr.all_chars safe_char s then s
  else squote
       +:+ PyStr.replace squote (squote +:+ dquote +:+ squote +:+ dquote +:+ squote) s
       +:+ squote.

End Shlex.

Definition sanitize_for_shell (input_string : string) : string :=
  Shlex.quote input_string.

(** ** Requests *)

Record Model : Type := { model_model : string }.

Record FabricRequest : Type := {
  fabric_pattern : string;
  fabric_model : string;
  fabric_data : string
}.

Record YTRequest : Type := {
  yt_pattern : string;
  yt_model : string;
  yt_url : string
}.

Definition POWERSHELL : string :=
  "C:\Windows\System32\WindowsPowerShell\v1.0\powershell.exe".

(** ** The handlers *)

Section Handlers.

(** [sys.platform] and the two module globals set at import. *)
Variable platform : string.
Variables FABRIC_PATH YT_PATH : string.

(** [str(e)] for an exception, [str(v)] and [type(v)] for a value: the
    texts used in log lines and error details. *)
Variable str_exn : exn -> string.
Variable str_val : pyval -> string.
Variable str_type : pyval -> string.

(** The command text [proxy.run_command] attaches to a failure. *)
Variable command_string : list string -> string.

(** Modelled from the spec: [run_command] of [proxy.py], which is not
    among the sources.  Section 4.1: the child is spawned and awaited;
    exit code 0 returns the captured standard output as it is, any other
    exit code fails with [ExecutionFailure] carrying the captured
    standard error, the exit code and the command string.  The failure is
    the [subprocess.CalledProcessError] that the handlers catch. *)
Definition run_command (argv : list string) : prog string :=
  Spawn argv (fun cp =>
    if returncode cp =? 0 then Ret (stdout cp)
    else Raise (CalledProcessError (returncode cp) (command_string argv) (stderr cp))).

(** The f-strings that build the bridged command lines. *)
Definition fabric_powershell_command
    (temp_file_path : string) (request : FabricRequest) : string :=
  "gc '" +:+ temp_file_path +:+ "' | wsl -e " +:+ FABRIC_PATH
  +:+ " -sp '" +:+ fabric_pattern request
  +:+ "' --model '" +:+ fabric_model request +:+ "'".

Definition yt_powershell_command
    (temp_file_path : string) (request : YTRequest) : string :=
  "gc '" +:+ temp_file_path +:+ "' | wsl -e " +:+ FABRIC_PATH
  +:+ " -sp '" +:+ yt_pattern request
  +:+ "' --model " +:+ yt_model request.

Definition set_model_powershell_command (request : Model) : string :=
  "wsl -e " +:+ FABRIC_PATH +:+ " --changeDefaultModel '"
  +:+ model_model request +:+ "'".

Definition http_500 (e : exn) : prog pyval := Raise (HTTPException 500 (str_exn e)).

Definition output_json (output : string) : pyval := VDict [("output", VStr output)].

(** [POST /fabric] *)
Definition fabric (request : FabricRequest) : prog pyval :=
  try_except
    (let* _ := logging_info ("Running Fabric command with pattern: "
                             +:+ fabric_pattern request) in
     let* output :=
       if String.eqb platform "darwin" then
         let* out := run_command [FABRIC_PATH; "-sp"; fabric_pattern request;
                                  "--text"; fabric_data request;
                                  "--model"; fabric_model request] in
         Ret (Some out)
       else if String.eqb platform "win32" then
         let* temp_file_path :=
           if PyStr.truthy (fabric_data request) then
             let* name := named_temporary_file (fabric_data request) in
             Ret (Some name)
           else Ret None in
         let* path := local "temp_file_path" temp_file_path in
         let powershell_command := fabric_powershell_command path request in
         let* out := run_command [POWERSHELL; "-Command"; powershell_command] in
         let* path' := local "temp_file_path" temp_file_path in
         let* _ := os_unlink path' in
         Ret (Some out)
       else Ret None in
     let* _ := logging_info "Fabric command executed successfully" in
     let* out := local "output" output in
     Ret (output_json out))
    (fun e =>
       match e with
       | CalledProcessError _ _ _ =>
           Some (let* _ := logging_error ("Error executing Fabric command: "
                                          +:+ str_exn e) in
                 http_500 e)
       | _ => None
       end).

(** [GET /models] *)
Definition get_models : prog pyval :=
  let* _ := logging_info "Retrieving models" in
  let* result :=
    if existsb (String.eqb platform) ["darwin"; "win32"] then
      execute_fabric_command "--listmodels"
    else
      let* _ := logging_error ("Unsupported platform: " +:+ platform) in
      Raise (HTTPException 500 "Unsupported platform") in
  match result with
  | VList items =>
      let* filtered_models := of_result (Models.filtered_models items) in
      let* _ := logging_info
                  ("Models retrieved successfully. Count: "
                   +:+ str_val (VInt (Z.of_nat (length filtered_models)))) in
      Ret (VDict [("data", VDict [("models", VList filtered_models)])])
  | _ =>
      let* _ := logging_error ("Unexpected result type: " +:+ str_type result
                               +:+ ". Content: " +:+ str_val result) in
      Raise (HTTPException 500 "Unexpected result format from execute_fabric_command")
  end.

(** [POST /set_model] *)
Definition set_model (request : Model) : prog pyval :=
  try_except
    (let* _ := logging_info ("Setting model to: " +:+ model_model request) in
     let* output :=
       if String.eqb platform "darwin" then
         let* out := run_command [FABRIC_PATH; "--changeDefaultModel";
                                  model_model request] in
         Ret (Some out)
       else if String.eqb platform "win32" then
         let powershell_command := set_model_powershell_command request in
         let* out := run_command [POWERSHELL; "-Command"; powershell_command] in
         Ret (Some out)
       else Ret None in
     let* _ := logging_info "Model set successfully" in
     let* out := local "output" output in
     Ret (output_json out))
    (fun e =>
       match e with
       | CalledProcessError _ _ _ =>
           Some (let* _ := logging_error ("Error setting model: " +:+ str_exn e) in
                 http_500 e)
       | _ => None
       end).

(** [POST /yt] *)
Definition yt (request : YTRequest) : prog pyval :=
  try_except
    (let* _ := logging_info ("Running YT command with URL: " +:+ yt_url request) in
     let* output :=
       if String.eqb platform "darwin" then
         let* transcript := run_command [YT_PATH; yt_url request] in
         let* out := run_command [FABRIC_PATH; "-sp"; yt_pattern request;
                                  "--text"; transcript;
                                  "--model"; yt_model request] in
         Ret (Some out)
       else if String.eqb platform "win32" then
         let* output := run_command ["wsl"; "-e"; YT_PATH; yt_url request] in
         if PyStr.truthy output then
           let* temp_file_path := named_temporary_file output in
           let powershell_command := yt_powershell_command temp_file_path request in
           let* output := run_command [POWERSHELL; "-Command"; powershell_command] in
           let* _ := os_unlink temp_file_path in
           Ret (Some output)
         else Ret (Some output)
       else Ret None in
     let* _ := logging_info "YT command executed successfully, running Fabric command" in
     let* _ := logging_info "Fabric command executed successfully" in
     let* out := local "output" output in
     Ret (output_json out))
    (fun e =>
       match e with
       | CalledProcessError _ _ _ =>
           Some (let* _ := logging_error ("Error executing YT or Fabric command: "
                                          +:+ str_exn e) in
                 http_500 e)
       | _ => None
       end).

(** [GET /patterns] *)
Definition get_patterns : prog pyval :=
  let* _ := logging_info "Retrieving patterns" in
  let* result :=
    if String.eqb platform "darwin" then
      let* r := execute_fabric_command "--list" in Ret (Some r)
    else if String.eqb platform "win32" then
      let* r := execute_fabric_command "--list" in Ret (Some r)
    else Ret None in
  let* result := local "result" result in
  match result with
  | VList _ =>
      let* _ := logging_info "Patterns retrieved successfully" in
      Ret (VDict [("data", VDict [("patterns", result)])])
  | _ =>
      let* _ := logging_error ("Error retrieving patterns: " +:+ str_val result) in
      Raise (HTTPException 500 (str_val result))
  end.

End Handlers.

(** ** Module import and server start *)

Record globals : Type := {
  HOME_DIR : string;
  FABRIC_PATH : string;
  YT_PATH : string
}.

Section Startup.

Variable platform : string.
(** [os.path.expanduser("~")] and [os.path.join] of the running system. *)
Variable expanduser_home : string.
Variable os_path_join : string -> list string -> string.

(** The platform branch of the module body. *)
Definition module_body : prog globals :=
  if String.eqb platform "darwin" then
    let home := expanduser_home in
    Ret {| HOME_DIR := home;
           FABRIC_PATH := os_path_join home [".local"; "bin"; "fabric"];
           YT_PATH := os_path_join home [".local"; "bin"; "yt"] |}
  else if String.eqb platform "win32" then
    let home := PyStr.replace "C:" EmptyString (PyStr.replace "Users" "home" expanduser_home) in
    Ret {| HOME_DIR := home;
           FABRIC_PATH :=
             PyStr.replace "\" "/" (os_path_join home [".local"; "bin"; "fabric"]);
           YT_PATH :=
             PyStr.replace "\" "/" (os_path_join home [".local"; "bin"; "yt"]) |}
  else
    Print "Unsupported operating system" (Raise (SystemExit 1)).

(** [start_api_server]: uvicorn serves on the loopback port.  Binding is
    taken to succeed: the [except Exception] around [server.run()], which
    logs and re-raises, and a port that is already taken are left out. *)
Definition start_api_server : prog unit :=
  let* _ := logging_info "Starting API server" in
  Listen "127.0.0.1" 49152 (Ret tt).

(** Running [api.py] as a script: the module body, then the
    [__main__] guard. *)
Definition main : prog unit :=
  let* _ := module_body in
  start_api_server.

End Startup.

(** ** The host: file system, child processes, temporary names *)

Record world : Type := {
  fs : gmap string string;           (* path -> content *)
  tmp_seq : nat;                     (* position in the random name sequence *)
  calls : list (list string);        (* argument vectors spawned so far *)
  log : list (level * string);       (* lines of the log file *)
  console : list string;             (* lines printed *)
  listeners : list (string * Z)      (* sockets bound and serving *)
}.

Definition set_fs (f : gmap string string -> gmap string string) (w : world) : world :=
  {| fs := f (fs w); tmp_seq := tmp_seq w; calls := calls w; log := log w;
     console := console w; listeners := listeners w |}.
Definition set_tmp_seq (n : nat) (w : world) : world :=
  {| fs := fs w; tmp_seq := n; calls := calls w; log := log w; console := console w; listeners := listeners w |}.
Definition add_call (argv : list string) (w : world) : world :=
  {| fs := fs w; tmp_seq := tmp_seq w; calls := calls w ++ [argv]; log := log w;
     console := console w; listeners := listeners w |}.
Definition add_log (lvl : level) (msg : string) (w : world) : world :=
  {| fs := fs w; tmp_seq := tmp_seq w; calls := calls w; log := log w ++ [(lvl, msg)];
     console := console w; listeners := listeners w |}.
Definition add_console (msg : string) (w : world) : world :=
  {| fs := fs w; tmp_seq := tmp_seq w; calls := calls w; log := log w;
     console := console w ++ [msg]; listeners := listeners w |}.
Definition add_listener (addr : string) (port : Z) (w : world) : world :=
  {| fs := fs w; tmp_seq := tmp_seq w; calls := calls w; log := log w;
     console := console w; listeners := listeners w ++ [(addr, port)] |}.

Definition empty_world : world :=
  {| fs := ∅; tmp_seq := O; calls := []; log := []; console := []; listeners := [] |}.

(** What the handlers cannot decide: how a child process ends, what
    [execute_fabric_command] returns, which names [tempfile] proposes and
    how many it tries.  A child process reads the file system and does not
    change it. *)
Record host : Type := {
  os_exec : world -> list string -> CompletedProcess;
  fabric_tool : world -> string -> pyval;
  tmp_name : nat -> string;
  TMP_MAX : nat
}.

Section Semantics.

Variable H : host.

(** [tempfile._mkstemp_inner]: propose names until one does not exist
    ([O_EXCL]), at most [TMP_MAX] times. *)
Fixpoint mkstemp_loop (attempts seq : nat) (files : gmap string string)
  : option (string * nat) :=
  match attempts with
  | O => None
  | S n =>
      let name := tmp_name H seq in
      match files !! name with
      | Some _ => mkstemp_loop n (S seq) files
      | None => Some (name, S seq)
      end
  end.

(** The [with] block: the file is created under the name found and the
    payload written to it.  The write is taken to succeed: a payload that
    the encoding of the locale cannot take is left out. *)
Definition do_tempfile (data : string) (w : world) : (exn + string) * world :=
  match mkstemp_loop (TMP_MAX H) (tmp_seq w) (fs w) with
  | Some (name, seq) => (inr name, set_fs (insert name data) (set_tmp_seq seq w))
  | None => (inl FileExistsError, set_tmp_seq (tmp_seq w + TMP_MAX H) w)
  end.

Definition do_unlink (path : string) (w : world) : (exn + unit) * world :=
  match fs w !! path with
  | Some _ => (inr tt, set_fs (delete path) w)
  | None => (inl (FileNotFoundError path), w)
  end.

(** *** One handler, run to completion *)
Fixpoint interp {A : Type} (p : prog A) (w : world) : (exn + A) * world :=
  match p with
  | Ret a => (inr a, w)
  | Raise e => (inl e, w)
  | Spawn argv k =>
      let w1 := add_call argv w in
      interp (k (os_exec H w1 argv)) w1
  | ExecFabric arg k => interp (k (fabric_tool H w arg)) w
  | NamedTemporaryFile data k =>
      let '(r, w1) := do_tempfile data w in interp (k r) w1
  | Unlink path k =>
      let '(r, w1) := do_unlink path w in interp (k r) w1
  | Logging lvl msg k => interp k (add_log lvl msg w)
  | Print msg k => interp k (add_console msg w)
  | Listen addr port k => interp k (add_listener addr port w)
  end.

(** *** Several handlers on the event loop *)

Inductive status (A : Type) : Type :=
| Finished (r : exn + A)
| Awaiting (argv : list string) (k : CompletedProcess -> prog A).

Arguments Finished {A} r.
Arguments Awaiting {A} argv k.

(** Run a handler up to its next [await].  [held] lists the temporary
    files this request has created and not yet removed. *)
Fixpoint run_to_await {A : Type} (p : prog A) (held : list string) (w : world)
  : status A * list string * world :=
  match p with
  | Ret a => (Finished (inr a), held, w)
  | Raise e => (Finished (inl e), held, w)
  | Spawn argv k => (Awaiting argv k, held, add_call argv w)
  | ExecFabric arg k => run_to_await (k (fabric_tool H w arg)) held w
  | NamedTemporaryFile data k =>
      let '(r, w1) := do_tempfile data w in
      run_to_await (k r) (match r with inr name => name :: held | inl _ => held end) w1
  | Unlink path k =>
      let '(r, w1) := do_unlink path w in
      run_to_await (k r)
        (match r with
         | inr _ => List.filter (fun q => negb (String.eqb q path)) held
         | inl _ => held
         end) w1
  | Logging lvl msg k => run_to_await k held (add_log lvl msg w)
  | Print msg k => run_to_await k held (add_console msg w)
  | Listen addr port k => run_to_await k held (add_listener addr port w)
  end.

End Semantics.

Arguments Finished {A} r.
Arguments Awaiting {A} argv k.

(** ** The server: requests in flight on one event loop *)

Inductive request : Type :=
| ReqFabric (r : FabricRequest)
| ReqModels
| ReqSetModel (r : Model)
| ReqYt (r : YTRequest)
| ReqPatterns.

(** A request in flight, or answered. *)
Record task : Type := {
  t_status : status pyval;
  t_held : list string
}.

Record system : Type := {
  sys_world : world;
  pool : list task
}.

(** What the event loop reacts to: a request arrives, or the child process
    awaited by request [i] ends. *)
Inductive event : Type :=
| Accept (r : request)
| Complete (i : nat) (cp : CompletedProcess).

Section Server.

Variable H : host.
Variable platform : string.
Variable G : globals.
Variable str_exn : exn -> string.
Variable str_val : pyval -> string.
Variable str_type : pyval -> string.
Variable command_string : list string -> string.

(** Route table. *)
Definition handler (r : request) : prog pyval :=
  match r with
  | ReqFabric q => fabric platform (FABRIC_PATH G) str_exn command_string q
  | ReqModels => get_models platform str_val str_type
  | ReqSetModel q => set_model platform (FABRIC_PATH G) str_exn command_string q
  | ReqYt q => yt platform (FABRIC_PATH G) (YT_PATH G) str_exn command_string q
  | ReqPatterns => get_patterns platform str_val
  end.

Definition start_task (p : prog pyval) (held : list string) (w : world)
  : task * world :=
  let '(st, held', w') := run_to_await H p held w in
  ({| t_status := st; t_held := held' |}, w').

Definition sys_step (s : system) (ev : event) : system :=
  match ev with
  | Accept r =>
      let '(t, w') := start_task (handler r) [] (sys_world s) in
      {| sys_world := w'; pool := pool s ++ [t] |}
  | Complete i cp =>
      match pool s !! i with
      | Some {| t_status := Awaiting _ k; t_held := held |} =>
          let '(t, w') := start_task (k cp) held (sys_world s) in
          {| sys_world := w'; pool := <[i := t]> (pool s) |}
      | _ => s
      end
  end.

Definition run_events (evs : list event) (s : system) : system :=
  fold_left sys_step evs s.

Definition boot (w : world) : system := {| sys_world := w; pool := [] |}.

End Server.

(** ** Ownership of temporary files

    [scoped held p]: whatever the host answers, [p] only removes files that
    it holds, where it holds the files it has created and not yet removed,
    starting from [held]. *)

Inductive scoped {A : Type} : list string -> prog A -> Prop :=
| scoped_Ret held a : scoped held (Ret a)
| scoped_Raise held e : scoped held (Raise e)
| scoped_Spawn held argv k :
    (forall cp, scoped held (k cp)) -> scoped held (Spawn argv k)
| scoped_ExecFabric held arg k :
    (forall v, scoped held (k v)) -> scoped held (ExecFabric arg k)
| scoped_NamedTemporaryFile held data k :
    (forall name, scoped (name :: held) (k (inr name))) ->
    (forall e, scoped held (k (inl e))) ->
    scoped held (NamedTemporaryFile data k)
| scoped_Unlink held path k :
    In path held ->
    (forall u, scoped (List.filter (fun q => negb (String.eqb q path)) held) (k (inr u))) ->
    (forall e, scoped held (k (inl e))) ->
    scoped held (Unlink path k)
| scoped_Logging held lvl msg k : scoped held k -> scoped held (Logging lvl msg k)
| scoped_Print held msg k : scoped held k -> scoped held (Print msg k)
| scoped_Listen held addr port k : scoped held k -> scoped held (Listen addr port k).

(** The state of the server the ownership argument maintains: files held
    exist, no file is held twice, and every suspended handler is [scoped]
    for what it holds. *)
Record sys_inv (s : system) : Prop := {
  inv_exist : forall i t p,
    pool s !! i = Some t -> In p (t_held t) -> is_Some (fs (sys_world s) !! p);
  inv_disjoint : forall i j ti tj p,
    i <> j -> pool s !! i = Some ti -> pool s !! j = Some tj ->
    In p (t_held ti) -> In p (t_held tj) -> False;
  inv_scoped : forall i t argv k,
    pool s !! i = Some t -> t_status t = Awaiting argv k ->
    forall cp, scoped (t_held t) (k cp)
}.

(** ** Reading a bridged command line

    The text of a PowerShell command that lies outside single-quoted
    literals, where it is parsed as syntax.  A quote toggles the literal;
    a doubled quote inside a literal stands for one quote and toggles
    twice. *)

Fixpoint outside_quotes_from (inside : bool) (s : string) : string :=
  match s with
  | EmptyString => EmptyString
  | String c s' =>
      if Ascii.eqb c "'"%char then outside_quotes_from (negb inside) s'
      else if inside then outside_quotes_from inside s'
      else String c (outside_quotes_from inside s')
  end.

Definition outside_quotes (s : string) : string := outside_quotes_from false s.

(** The bridged [fabric] command line with every interpolated value routed
    through [sanitize_for_shell], as the specification words it. *)
Definition fabric_powershell_command_sanitized
    (FABRIC_PATH temp_file_path : string) (request : FabricRequest) : string :=
  "gc " +:+ sanitize_for_shell temp_file_path +:+ " | wsl -e " +:+ FABRIC_PATH
  +:+ " -sp " +:+ sanitize_for_shell (fabric_pattern request)
  +:+ " --model " +:+ sanitize_for_shell (fabric_model request).

(** ** Hosts and requests used in examples *)

Module Examples.

Definition ok (out : string) : CompletedProcess :=
  {| returncode := 0; stdout := out; stderr := EmptyString |}.

Definition failed (code : Z) (err : string) : CompletedProcess :=
  {| returncode := code; stdout := EmptyString; stderr := err |}.

Definition names (n : nat) : string :=
  match n with
  | O => "/tmp/tmpa"
  | S O => "/tmp/tmpb"
  | _ => "/tmp/tmpc"
  end.

(** Every child succeeds and prints [out]. *)
Definition host_ok (out : string) : host :=
  {| os_exec := fun _ _ => ok out;
     fabric_tool := fun _ _ => VList [VStr "summarize"; VStr "extract_wisdom"];
     tmp_name := names; TMP_MAX := 100 |}.

(** Every child exits with status 2. *)
Definition host_failing : host :=
  {| os_exec := fun _ _ => failed 2 "boom";
     fabric_tool := fun _ _ => VStr "boom";
     tmp_name := names; TMP_MAX := 100 |}.

(** The transcript fetch succeeds; every later child fails. *)
Definition host_second_fails : host :=
  {| os_exec := fun w _ =>
       match calls w with
       | [_] => ok "transcript"
       | _ => failed 2 "boom"
       end;
     fabric_tool := fun _ _ => VNone;
     tmp_name := names; TMP_MAX := 100 |}.

Definition G : globals :=
  {| HOME_DIR := "/home/u";
     FABRIC_PATH := "/home/u/.local/bin/fabric";
     YT_PATH := "/home/u/.local/bin/yt" |}.

Definition str_exn (e : exn) : string :=
  match e with
  | CalledProcessError _ cmd _ => "Command '" +:+ cmd +:+ "' returned non-zero exit status"
  | _ => "error"
  end.

Definition str_val (v : pyval) : string :=
  match v with VStr s => s | _ => "value" end.

Definition str_type (v : pyval) : string := "<class>".

Definition command_string (argv : list string) : string := PyStr.join " " argv.

Definition fabric_req (data : string) : FabricRequest :=
  {| fabric_pattern := "summarize"; fabric_model := "gpt-4"; fabric_data := data |}.

Definition yt_req : YTRequest :=
  {| yt_pattern := "summarize"; yt_model := "gpt-4"; yt_url := "https://youtu.be/x" |}.

(** A pattern that closes the quote it is placed in. *)
Definition injecting_req : FabricRequest :=
  {| fabric_pattern := "x'; calc; '"; fabric_model := "m"; fabric_data := "d" |}.

(** A model that carries a second statement. *)
Definition injecting_yt_req : YTRequest :=
  {| yt_pattern := "p"; yt_model := "m; calc"; yt_url := "u" |}.

End Examples.

(** ** Worlds met along a bridged request *)

(** The world in which the bridged [fabric] handler spawns PowerShell, once
    the temporary file [name] holds the payload. *)
Definition fabric_spawn_world (FABRIC_PATH : string) (request : FabricRequest)
    (name : string) (seq : nat) (w : world) : world :=
  add_call [POWERSHELL; "-Command";
            fabric_powershell_command FABRIC_PATH name request]
    (set_fs (insert name (fabric_data request))
       (set_tmp_seq seq
          (add_log INFO ("Running Fabric command with pattern: "
                         +:+ fabric_pattern request) w))).

(** The first child of [yt], and the world in which it is spawned. *)
Definition yt_first_argv (platform YT_PATH : string) (request : YTRequest) : list string :=
  if String.eqb platform "darwin" then [YT_PATH; yt_url request]
  else ["wsl"; "-e"; YT_PATH; yt_url request].

Definition yt_first_world (argv : list string) (request : YTRequest) (w : world) : world :=
  add_call argv (add_log INFO ("Running YT command with URL: " +:+ yt_url request) w).

(** The second child of [yt] on each platform. *)
Definition yt_second_darwin (FABRIC_PATH : string) (request : YTRequest)
    (transcript : string) : list string :=
  [FABRIC_PATH; "-sp"; yt_pattern request; "--text"; transcript;
   "--model"; yt_model request].

Definition yt_second_win32 (FABRIC_PATH : string) (request : YTRequest)
    (name : string) : list string :=
  [POWERSHELL; "-Command"; yt_powershell_command FABRIC_PATH name request].

(** The world in which the bridged [yt] handler spawns PowerShell: the
    temporary file [name] holds the transcript. *)
Definition yt_spawn_world (FABRIC_PATH : string) (request : YTRequest)
    (name : string) (seq : nat) (transcript : string) (w1 : world) : world :=
  add_call (yt_second_win32 FABRIC_PATH request name)
    (set_fs (insert name transcript) (set_tmp_seq seq w1)).

(** The exception [run_command] raises for a child that ended as [cp]. *)
Definition failure_of (command_string : list string -> string)
    (argv : list string) (cp : CompletedProcess) : exn :=
  CalledProcessError (returncode cp) (command_string argv) (stderr cp).

(** A value free of single quotes. *)
Definition quote_free (s : string) : bool :=
  PyStr.all_chars (fun c => negb (Ascii.eqb c "'"%char)) s.

(** What one step of a [scoped] handler guarantees to the rest of the
    server: files it does not hold stay, the files it holds afterwards
    exist, each of them was held before or is new to the file system, and
    the suspended rest is [scoped] again. *)
Definition run_ok {A : Type} (held : list string) (w : world)
    (res : status A * list string * world) : Prop :=
  let '(st, held', w') := res in
  (forall q, ~ In q held -> is_Some (fs w !! q) -> is_Some (fs w' !! q))
  /\ ((forall q, In q held -> is_Some (fs w !! q)) ->
      forall q, In q held' -> is_Some (fs w' !! q))
  /\ (forall q, In q held' -> In q held \/ fs w !! q = None)
  /\ (forall argv k, st = Awaiting argv k -> forall cp, scoped held' (k cp)).

(** The answers of [yt]: the 500 of its [except] clause, and the output
    after its two closing log lines. *)
Definition yt_answer_500 (str_exn : exn -> string) (e : exn) (w : world)
  : (exn + pyval) * world :=
  (inl (HTTPException 500 (str_exn e)),
   add_log ERROR ("Error executing YT or Fabric command: " +:+ str_exn e) w).

Definition yt_answer_ok (out : string) (w : world) : (exn + pyval) * world :=
  (inr (output_json out),
   add_log INFO "Fabric command executed successfully"
     (add_log INFO "YT command executed successfully, running Fabric command" w)).

(** ** Shapes of the entries of a model listing *)

(** A record as [get_models] returns it: the single key [name], bound to
    a string that is neither a header name nor blank. *)
Definition is_model_record (o : pyval) : bool :=
  match o with
  | VDict [(k, VStr s)] =>
      String.eqb k "name" && negb (Models.is_header s) && negb (Models.is_blank s)
  | _ => false
  end.

Definition name_record (s : string) : pyval := VDict [("name", VStr s)].

(** An entry on which ['name' in item] or [item['name']] raises
    [TypeError]: a string or a list that contains [name], or a value that
    is not a container. *)
Definition type_error_entry (item : pyval) : bool :=
  match item with
  | VStr s => PyStr.contains "name" s
  | VList l =>
      existsb (fun x => match x with VStr s => String.eqb s "name" | _ => false end) l
  | VNone | VBool _ | VInt _ => true
  | VDict _ => false
  end.

Definition is_VStr (v : pyval) : bool :=
  match v with VStr _ => true | _ => false end.

(** ** What a handler may leave to its caller *)

(** The exceptions a handler lets out: never the failure of a child, never
    a missing file; an [HTTPException] carries status 500 and follows an
    [ERROR] line in the log. *)
Definition escapes_ok (res : (exn + pyval) * world) : Prop :=
  match fst res with
  | inl (CalledProcessError _ _ _) => False
  | inl (FileNotFoundError _) => False
  | inl (HTTPException code _) =>
      code = 500 /\ exists msg, last (log (snd res)) = Some (ERROR, msg)
  | _ => True
  end.

(** The handlers whose body awaits [run_command] inside
    [try: ... except subprocess.CalledProcessError], with the number of
    times the handler reaches such a call at most; the two listings go
    through [execute_fabric_command] and are not among them. *)
Definition run_command_bound (r : request) : option nat :=
  match r with
  | ReqYt _ => Some 2%nat
  | ReqFabric _ | ReqSetModel _ => Some 1%nat
  | ReqModels | ReqPatterns => None
  end.

(** What a handler answers on a platform that is neither [darwin] nor
    [win32]: only [get_models] tests for it. *)
Definition unsupported_answer (r : request) : exn :=
  match r with
  | ReqModels => HTTPException 500 "Unsupported platform"
  | ReqPatterns => UnboundLocalError "result"
  | ReqFabric _ | ReqSetModel _ | ReqYt _ => UnboundLocalError "output"
  end.

(** The argument vector of the native [fabric] child. *)
Definition fabric_native_argv (FABRIC_PATH : string) (request : FabricRequest)
  : list string :=
  [FABRIC_PATH; "-sp"; fabric_pattern request; "--text"; fabric_data request;
   "--model"; fabric_model request].

(** The argument vector of the [set_model] child. *)
Definition set_model_argv (platform FABRIC_PATH : string) (request : Model)
  : list string :=
  if String.eqb platform "darwin"
  then [FABRIC_PATH; "--changeDefaultModel"; model_model request]
  else [POWERSHELL; "-Command"; set_model_powershell_command FABRIC_PATH request].

Module MoreExamples.

(** A host whose [tempfile] proposes a single name. *)
Definition host_one_name : host :=
  {| os_exec := fun _ _ => Examples.ok "out";
     fabric_tool := fun _ _ => VList [VStr "Renamed Models:"];
     tmp_name := fun _ => "/tmp/tmpa"; TMP_MAX := 1 |}.

(** A world in which that name is taken. *)
Definition world_name_taken : world :=
  set_fs (insert "/tmp/tmpa" "left over") empty_world.

End MoreExamples.

(** ** Requests that answer hold nothing

    [tidy held p]: whatever the host answers, when [p] returns a result it
    holds no temporary file, starting from [held]. *)

Inductive tidy {A : Type} : list string -> prog A -> Prop :=
| tidy_Ret a : tidy [] (Ret a)
| tidy_Raise held e : tidy held (Raise e)
| tidy_Spawn held argv k :
    (forall cp, tidy held (k cp)) -> tidy held (Spawn argv k)
| tidy_ExecFabric held arg k :
    (forall v, tidy held (k v)) -> tidy held (ExecFabric arg k)
| tidy_NamedTemporaryFile held data k :
    (forall name, tidy (name :: held) (k (inr name))) ->
    (forall e, tidy held (k (inl e))) ->
    tidy held (NamedTemporaryFile data k)
| tidy_Unlink held path k :
    (forall u, tidy (List.filter (fun q => negb (String.eqb q path)) held) (k (inr u))) ->
    (forall e, tidy held (k (inl e))) ->
    tidy held (Unlink path k)
| tidy_Logging held lvl msg k : tidy held k -> tidy held (Logging lvl msg k)
| tidy_Print held msg k : tidy held k -> tidy held (Print msg k)
| tidy_Listen held addr port k : tidy held k -> tidy held (Listen addr port k).

(** A task is tidy when it has answered with a result and holds nothing,
    has failed, or is suspended on a [tidy] rest. *)
Definition task_tidy (t : task) : Prop :=
  match t_status t with
  | Finished (inr _) => t_held t = []
  | Finished (inl _) => True
  | Awaiting _ k => forall cp, tidy (t_held t) (k cp)
  end.

(** A string in which the character [c] does not occur. *)
Definition char_free (c : ascii) (s : string) : bool :=
  PyStr.all_chars (fun a => negb (Ascii.eqb a c)) s.

(** The replacement [shlex.quote] makes for a single quote. *)
Definition escaped_squote : string :=
  Shlex.squote +:+ Shlex.dquote +:+ Shlex.squote +:+ Shlex.dquote +:+ Shlex.squote.

(** ** The server handle

    The module global [server] and the two functions that use it.  A
    [uvicorn.Server] is modelled by its [should_exit] flag; as an object it
    is truthy. *)

Record Server : Type := { should_exit : bool }.

Record control : Type := {
  server : option Server;
  control_log : list (level * string)
}.

(** The assignment [server = uvicorn.Server(config)] of
    [start_api_server], with the log line before it. *)
Definition start_api_server_handle (c : control) : control :=
  {| server := Some {| should_exit := false |};
     control_log := control_log c ++ [(INFO, "Starting API server")] |}.

Definition stop_api_server (c : control) : control :=
  match server c with
  | Some _ =>
      {| server := Some {| should_exit := true |};
         control_log := control_log c ++ [(INFO, "Stopping API server")] |}
  | None =>
      {| server := None;
         control_log :=
           control_log c
           ++ [(WARNING, "Attempted to stop API server, but it was not running")] |}
  end.

(** * Properties *)

(** ** The model-listing transform *)

Lemma keep_header_string s :
  PyStr.contains "name" s = false -> Models.keep (VStr s) = inr false.
Proof. intros Hs. unfold Models.keep. cbn [Models.has_name]. now rewrite Hs. Qed.

Lemma keep_record d s :
  dict_get "name" d = Some (VStr s) ->
  Models.keep (VDict d) = inr (negb (Models.is_header s) && negb (Models.is_blank s)).
Proof.
  intros Hd. unfold Models.keep, Models.has_name, Models.get_name.
  rewrite Hd. cbn [Models.not_in_headers Models.strip_truthy].
  unfold Models.is_header, Models.is_blank.
  destruct (existsb (String.eqb s) Models.headers); cbn; [reflexivity|].
  now rewrite negb_involutive.
Qed.

Lemma keep_record_without_name d :
  dict_get "name" d = None -> Models.keep (VDict d) = inr false.
Proof. intros Hd. unfold Models.keep, Models.has_name. now rewrite Hd. Qed.

(** The example of the specification, run on the code. *)
Example filtered_models_example :
  Models.filtered_models Models.example_input
  = inr [VDict [("name", VStr "gpt-4")]; VDict [("name", VStr "claude-3")]].
Proof. reflexivity. Qed.

(** C5, as stated, fails: a section-header string that contains [name]
    makes the comprehension index a string with ['name'], and the transform
    raises [TypeError] instead of returning the model records. *)
Lemma filtered_models_header_containing_name :
  let input := [VStr "Renamed Models:"; VDict [("name", VStr "gpt-4")]] in
  Models.filtered_models input = inl TypeError
  /\ Models.filtered_models input <> inr (Models.model_names_spec input).
Proof. cbv zeta. split; [reflexivity | discriminate]. Qed.

(** C5, amended: on a list whose string entries do not contain [name] and
    whose records carry a string under [name] (or no [name] at all), the
    transform returns, in the original order, one [{name}] record for each
    record whose name is neither one of the four header names nor blank. *)
Theorem filtered_models_spec (result : list pyval) :
  Forall Models.entry_ok result ->
  Models.filtered_models result = inr (Models.model_names_spec result).
Proof.
  unfold Models.model_names_spec.
  induction 1 as [|item rest Hitem _ IH]; [reflexivity|].
  cbn [Models.filtered_models omap list_omap].
  destruct item as [| | |s|l|d]; cbn [Models.entry_ok] in Hitem; try contradiction.
  - rewrite (keep_header_string s Hitem). cbn [Models.record_name]. exact IH.
  - cbn [Models.record_name].
    destruct (dict_get "name" d) as [[| | |s| |]|] eqn:Hd; try contradiction.
    + rewrite (keep_record d s Hd). cbn [List.filter].
      destruct (negb (Models.is_header s) && negb (Models.is_blank s)).
      * unfold Models.get_name. rewrite Hd, IH. reflexivity.
      * exact IH.
    + rewrite (keep_record_without_name d Hd). exact IH.
Qed.

Lemma filtered_models_spec_witness :
  Forall Models.entry_ok Models.example_input
  /\ Models.filtered_models Models.example_input
     = inr [VDict [("name", VStr "gpt-4")]; VDict [("name", VStr "claude-3")]].
Proof.
  assert (Hok : Forall Models.entry_ok Models.example_input).
  { repeat constructor. }
  split; [exact Hok|].
  exact (filtered_models_spec Models.example_input Hok).
Defined.

(** Case analysis on the exit status tested in the goal. *)
Ltac case_returncode :=
  match goal with
  | |- context [returncode ?cp =? 0] => destruct (returncode cp =? 0) eqn:?
  end.

(** ** [POST /fabric] *)

Section FabricFacts.

Variable H : host.
Variable FABRIC_PATH : string.
Variable str_exn : exn -> string.
Variable command_string : list string -> string.

Abbreviation fabric_win32 := (fabric "win32" FABRIC_PATH str_exn command_string).

Lemma fabric_win32_run (request : FabricRequest) (w : world) name seq :
  PyStr.truthy (fabric_data request) = true ->
  mkstemp_loop H (TMP_MAX H) (tmp_seq w) (fs w) = Some (name, seq) ->
  let w2 := fabric_spawn_world FABRIC_PATH request name seq w in
  let argv := [POWERSHELL; "-Command";
               fabric_powershell_command FABRIC_PATH name request] in
  let cp := os_exec H w2 argv in
  interp H (fabric_win32 request) w =
  if returncode cp =? 0 then
    (inr (output_json (stdout cp)),
     add_log INFO "Fabric command executed successfully" (set_fs (delete name) w2))
  else
    let e := CalledProcessError (returncode cp) (command_string argv) (stderr cp) in
    (inl (HTTPException 500 (str_exn e)),
     add_log ERROR ("Error executing Fabric command: " +:+ str_exn e) w2).
Proof.
  intros Hdata Htmp. cbv zeta.
  unfold fabric, fabric_spawn_world. cbn. rewrite Hdata.
  cbn. unfold do_tempfile. cbn. rewrite Htmp. cbn.
  destruct (returncode _ =? 0) eqn:Hrc.
  - cbn. unfold do_unlink. cbn. rewrite lookup_insert_eq. reflexivity.
  - cbn. reflexivity.
Qed.

(** On success the temporary file is removed. *)
Lemma fabric_success_removes_temp_file (request : FabricRequest) (w : world) name seq :
  PyStr.truthy (fabric_data request) = true ->
  mkstemp_loop H (TMP_MAX H) (tmp_seq w) (fs w) = Some (name, seq) ->
  returncode (os_exec H (fabric_spawn_world FABRIC_PATH request name seq w)
                [POWERSHELL; "-Command";
                 fabric_powershell_command FABRIC_PATH name request]) = 0 ->
  fs (snd (interp H (fabric_win32 request) w)) !! name = None.
Proof.
  intros Hdata Htmp Hrc.
  rewrite (fabric_win32_run request w name seq Hdata Htmp). cbv zeta.
  rewrite Hrc. cbn. apply lookup_delete_eq.
Qed.

(** C2 fails on the code: when the bridged child exits with a non-zero
    status, [run_command] raises before [os.unlink] is reached; the
    handler answers 500 and the temporary file is still there, holding
    the payload. *)
Theorem fabric_failure_leaves_temp_file
    (request : FabricRequest) (w : world) name seq :
  PyStr.truthy (fabric_data request) = true ->
  mkstemp_loop H (TMP_MAX H) (tmp_seq w) (fs w) = Some (name, seq) ->
  returncode (os_exec H (fabric_spawn_world FABRIC_PATH request name seq w)
                [POWERSHELL; "-Command";
                 fabric_powershell_command FABRIC_PATH name request]) <> 0 ->
  let r := interp H (fabric_win32 request) w in
  (exists detail, fst r = inl (HTTPException 500 detail))
  /\ fs (snd r) !! name = Some (fabric_data request).
Proof.
  intros Hdata Htmp Hrc. cbv zeta.
  rewrite (fabric_win32_run request w name seq Hdata Htmp). cbv zeta.
  apply Z.eqb_neq in Hrc. rewrite Hrc. cbn. split; [eauto|].
  apply lookup_insert_eq.
Qed.

(** C9: with an empty [data] on the bridged platform the f-string reads
    [temp_file_path] before any assignment.  The [UnboundLocalError] (a
    [NameError]) is not a [CalledProcessError], so the [except] clause
    does not turn it into the 500 answer; no child process was spawned. *)
Theorem fabric_empty_data_unbound_temp_path (pattern model : string) (w : world) :
  let request := {| fabric_pattern := pattern; fabric_model := model;
                    fabric_data := EmptyString |} in
  let r := interp H (fabric_win32 request) w in
  fst r = inl (UnboundLocalError "temp_file_path")
  /\ is_NameError (UnboundLocalError "temp_file_path") = true
  /\ (forall detail, fst r <> inl (HTTPException 500 detail))
  /\ calls (snd r) = calls w
  /\ fs (snd r) = fs w.
Proof.
  cbv zeta. cbn. repeat split. discriminate.
Qed.

End FabricFacts.

Lemma fabric_failure_leaves_temp_file_witness :
  let r := interp Examples.host_failing
             (fabric "win32" (FABRIC_PATH Examples.G) Examples.str_exn
                Examples.command_string (Examples.fabric_req "some text"))
             empty_world in
  (exists detail, fst r = inl (HTTPException 500 detail))
  /\ fs (snd r) !! "/tmp/tmpa" = Some "some text".
Proof.
  apply (fabric_failure_leaves_temp_file Examples.host_failing
           (FABRIC_PATH Examples.G) Examples.str_exn Examples.command_string
           (Examples.fabric_req "some text") empty_world "/tmp/tmpa" 1%nat).
  - reflexivity.
  - reflexivity.
  - cbn. lia.
Defined.

(** ** [POST /yt] *)

Section YtFacts.

Variable H : host.
Variables FABRIC_PATH YT_PATH : string.
Variable str_exn : exn -> string.
Variable command_string : list string -> string.

Abbreviation yt_on platform :=
  (yt platform FABRIC_PATH YT_PATH str_exn command_string).

Lemma yt_darwin_run (request : YTRequest) (w : world) :
  let first := yt_first_argv "darwin" YT_PATH request in
  let w1 := yt_first_world first request w in
  let cp1 := os_exec H w1 first in
  let second := yt_second_darwin FABRIC_PATH request (stdout cp1) in
  let w2 := add_call second w1 in
  let cp2 := os_exec H w2 second in
  interp H (yt_on "darwin" request) w =
  if returncode cp1 =? 0 then
    if returncode cp2 =? 0 then yt_answer_ok (stdout cp2) w2
    else yt_answer_500 str_exn (failure_of command_string second cp2) w2
  else yt_answer_500 str_exn (failure_of command_string first cp1) w1.
Proof.
  cbv zeta.
  unfold yt, yt_answer_500, yt_answer_ok, yt_first_world, yt_first_argv,
    yt_second_darwin, failure_of.
  cbn.
  case_returncode; cbn; [|reflexivity].
  case_returncode; cbn; reflexivity.
Qed.

Lemma yt_win32_run (request : YTRequest) (w : world) :
  let first := yt_first_argv "win32" YT_PATH request in
  let w1 := yt_first_world first request w in
  let cp1 := os_exec H w1 first in
  interp H (yt_on "win32" request) w =
  if returncode cp1 =? 0 then
    if PyStr.truthy (stdout cp1) then
      match mkstemp_loop H (TMP_MAX H) (tmp_seq w1) (fs w1) with
      | Some (name, seq) =>
          let second := yt_second_win32 FABRIC_PATH request name in
          let w2 := yt_spawn_world FABRIC_PATH request name seq (stdout cp1) w1 in
          let cp2 := os_exec H w2 second in
          if returncode cp2 =? 0 then yt_answer_ok (stdout cp2) (set_fs (delete name) w2)
          else yt_answer_500 str_exn (failure_of command_string second cp2) w2
      | None => (inl FileExistsError, set_tmp_seq (tmp_seq w1 + TMP_MAX H) w1)
      end
    else yt_answer_ok (stdout cp1) w1
  else yt_answer_500 str_exn (failure_of command_string first cp1) w1.
Proof.
  cbv zeta.
  unfold yt, yt_answer_500, yt_answer_ok, yt_first_world, yt_first_argv,
    yt_spawn_world, yt_second_win32, failure_of.
  cbn.
  case_returncode; cbn; [|reflexivity].
  destruct (PyStr.truthy _) eqn:Hout; cbn; [|reflexivity].
  unfold do_tempfile. cbn.
  destruct (mkstemp_loop _ _ _ _) as [[name seq]|] eqn:Htmp; cbn; [|reflexivity].
  case_returncode; cbn; [|reflexivity].
  unfold do_unlink. cbn. rewrite lookup_insert_eq. reflexivity.
Qed.

(** The second stage failing leaves the transcript file behind, as in
    [fabric]. *)
Lemma yt_failure_leaves_temp_file (request : YTRequest) (w : world) name seq :
  let first := yt_first_argv "win32" YT_PATH request in
  let w1 := yt_first_world first request w in
  let cp1 := os_exec H w1 first in
  let w2 := yt_spawn_world FABRIC_PATH request name seq (stdout cp1) w1 in
  returncode cp1 = 0 ->
  PyStr.truthy (stdout cp1) = true ->
  mkstemp_loop H (TMP_MAX H) (tmp_seq w1) (fs w1) = Some (name, seq) ->
  returncode (os_exec H w2 (yt_second_win32 FABRIC_PATH request name)) <> 0 ->
  fs (snd (interp H (yt_on "win32" request) w)) !! name = Some (stdout cp1).
Proof.
  cbv zeta. intros Hrc1 Hout Htmp Hrc2.
  apply Z.eqb_neq in Hrc2.
  rewrite yt_win32_run. cbv zeta.
  rewrite Hrc1. cbn [Z.eqb]. rewrite Hout, Htmp, Hrc2.
  cbn. apply lookup_insert_eq.
Qed.

(** C3 fails on the code: on the bridged platform the guard [if output:]
    ends the request after the transcript fetch when its output is empty.
    No pattern application runs, yet the request logs its success line for
    the pattern application and answers with the empty transcript.  The
    native branch of the same handler hands the same transcript to the
    second child, as [--text] with an empty value. *)
Theorem yt_empty_transcript_skips_pattern_stage (request : YTRequest) (w : world) :
  let first_bridged := ["wsl"; "-e"; YT_PATH; yt_url request] in
  let first_native := [YT_PATH; yt_url request] in
  returncode (os_exec H (yt_first_world first_bridged request w) first_bridged) = 0 ->
  stdout (os_exec H (yt_first_world first_bridged request w) first_bridged)
  = EmptyString ->
  returncode (os_exec H (yt_first_world first_native request w) first_native) = 0 ->
  stdout (os_exec H (yt_first_world first_native request w) first_native)
  = EmptyString ->
  let bridged := interp H (yt_on "win32" request) w in
  let native := interp H (yt_on "darwin" request) w in
  calls (snd bridged) = calls w ++ [first_bridged]
  /\ fst bridged = inr (output_json EmptyString)
  /\ last (log (snd bridged)) = Some (INFO, "Fabric command executed successfully")
  /\ calls (snd native)
     = calls w ++ [first_native;
                   [FABRIC_PATH; "-sp"; yt_pattern request; "--text"; EmptyString;
                    "--model"; yt_model request]].
Proof.
  cbv zeta. intros Hrc_b Hout_b Hrc_n Hout_n.
  unfold yt_first_world in *. unfold yt. cbn.
  rewrite Hrc_b, Hout_b, Hrc_n, Hout_n. cbn.
  repeat split.
  - now rewrite last_snoc.
  - case_returncode; cbn; now rewrite <- app_assoc.
Qed.

(** C10: on the bridged platform, a transcript fetch that ends with
    status 0 and an empty output makes [if output:] skip the second
    stage; the handler answers [{"output": ""}] after one child. *)
Theorem yt_empty_transcript_returns_empty_output (request : YTRequest) (w : world) :
  let first := ["wsl"; "-e"; YT_PATH; yt_url request] in
  let w1 := yt_first_world first request w in
  returncode (os_exec H w1 first) = 0 ->
  stdout (os_exec H w1 first) = EmptyString ->
  let r := interp H (yt_on "win32" request) w in
  fst r = inr (VDict [("output", VStr EmptyString)])
  /\ calls (snd r) = calls w ++ [first]
  /\ fs (snd r) = fs w.
Proof.
  cbv zeta. intros Hrc Hout.
  pose proof (yt_win32_run request w) as Hrun. cbv zeta in Hrun.
  change (yt_first_argv "win32" YT_PATH request)
    with ["wsl"; "-e"; YT_PATH; yt_url request] in Hrun.
  rewrite Hrun, Hrc, Hout. cbn. repeat split; reflexivity.
Qed.

End YtFacts.

(** The transcript fetch succeeds, the pattern application fails: the
    answer is 500 and the transcript file stays. *)
Example yt_second_stage_failure :
  let r := interp Examples.host_second_fails
             (yt "win32" (FABRIC_PATH Examples.G) (YT_PATH Examples.G)
                Examples.str_exn Examples.command_string Examples.yt_req)
             empty_world in
  is_HTTPException (match fst r with inl e => e | inr _ => TypeError end) = true
  /\ length (calls (snd r)) = 2%nat
  /\ fs (snd r) !! "/tmp/tmpa" = Some "transcript".
Proof. cbv zeta. repeat split; reflexivity. Qed.

Lemma yt_empty_transcript_skips_pattern_stage_witness :
  let request := Examples.yt_req in
  let first_bridged := ["wsl"; "-e"; YT_PATH Examples.G; yt_url request] in
  let first_native := [YT_PATH Examples.G; yt_url request] in
  let run platform :=
    interp (Examples.host_ok EmptyString)
      (yt platform (FABRIC_PATH Examples.G) (YT_PATH Examples.G)
         Examples.str_exn Examples.command_string request)
      empty_world in
  calls (snd (run "win32")) = calls empty_world ++ [first_bridged]
  /\ fst (run "win32") = inr (output_json EmptyString)
  /\ last (log (snd (run "win32")))
     = Some (INFO, "Fabric command executed successfully")
  /\ calls (snd (run "darwin"))
     = calls empty_world
       ++ [first_native;
           [FABRIC_PATH Examples.G; "-sp"; yt_pattern request; "--text"; EmptyString;
            "--model"; yt_model request]].
Proof.
  apply (yt_empty_transcript_skips_pattern_stage (Examples.host_ok EmptyString)
           (FABRIC_PATH Examples.G) (YT_PATH Examples.G)
           Examples.str_exn Examples.command_string Examples.yt_req empty_world).
  - reflexivity.
  - reflexivity.
  - reflexivity.
  - reflexivity.
Defined.

Lemma yt_empty_transcript_returns_empty_output_witness :
  let r := interp (Examples.host_ok EmptyString)
             (yt "win32" (FABRIC_PATH Examples.G) (YT_PATH Examples.G)
                Examples.str_exn Examples.command_string Examples.yt_req)
             empty_world in
  fst r = inr (VDict [("output", VStr EmptyString)])
  /\ calls (snd r) = calls empty_world ++ [["wsl"; "-e"; YT_PATH Examples.G;
                                            yt_url Examples.yt_req]]
  /\ fs (snd r) = fs empty_world.
Proof.
  apply (yt_empty_transcript_returns_empty_output (Examples.host_ok EmptyString)
           (FABRIC_PATH Examples.G) (YT_PATH Examples.G)
           Examples.str_exn Examples.command_string Examples.yt_req empty_world).
  - reflexivity.
  - reflexivity.
Defined.

(** ** [run_command] *)

Section RunCommandFacts.

Variable H : host.
Variable command_string : list string -> string.

(** C4: [run_command] returns the captured standard output, as it is,
    exactly when the child exits with status 0; for any other status it
    raises the failure that carries that status and the captured standard
    error. *)
Theorem run_command_contract (argv : list string) (w : world) :
  let cp := os_exec H (add_call argv w) argv in
  let r := fst (interp H (run_command command_string argv) w) in
  (forall out, r = inr out <-> returncode cp = 0 /\ out = stdout cp)
  /\ (if returncode cp =? 0 then r = inr (stdout cp)
      else r = inl (CalledProcessError (returncode cp) (command_string argv)
                      (stderr cp)))
  /\ calls (snd (interp H (run_command command_string argv) w)) = calls w ++ [argv].
Proof.
  cbv zeta. cbn.
  destruct (returncode _ =? 0) eqn:Hrc; cbn.
  - apply Z.eqb_eq in Hrc. repeat split; try congruence.
    intros [_ ->]. reflexivity.
  - apply Z.eqb_neq in Hrc. repeat split; try discriminate.
    intros [? _]. contradiction.
Qed.

End RunCommandFacts.

(** ** Startup *)

Section StartupFacts.

Variable H : host.
Variable expanduser_home : string.
Variable os_path_join : string -> list string -> string.

(** C6: on a platform other than [darwin] and [win32] the module body
    prints its message and exits with status 1; [start_api_server] is
    never reached, so no listener is bound and no child is spawned. *)
Theorem unsupported_platform_exits_before_listening (platform : string) (w : world) :
  platform <> "darwin" -> platform <> "win32" ->
  let r := interp H (main platform expanduser_home os_path_join) w in
  fst r = inl (SystemExit 1)
  /\ listeners (snd r) = listeners w
  /\ calls (snd r) = calls w
  /\ console (snd r) = console w ++ ["Unsupported operating system"].
Proof.
  intros Hd Hw. cbv zeta. unfold main, module_body.
  apply String.eqb_neq in Hd, Hw. rewrite Hd, Hw. cbn.
  repeat split; reflexivity.
Qed.

End StartupFacts.

Lemma unsupported_platform_exits_before_listening_witness :
  let r := interp Examples.host_failing
             (main "linux" "/home/u" (fun home parts => PyStr.join "/" (home :: parts)))
             empty_world in
  fst r = inl (SystemExit 1)
  /\ listeners (snd r) = listeners empty_world
  /\ calls (snd r) = calls empty_world
  /\ console (snd r) = console empty_world ++ ["Unsupported operating system"].
Proof.
  apply (unsupported_platform_exits_before_listening Examples.host_failing "/home/u"
           (fun home parts => PyStr.join "/" (home :: parts)) "linux" empty_world).
  - discriminate.
  - discriminate.
Defined.

(** ** [GET /patterns] *)

(** C7: on a supported platform [get_patterns] asks the tool once; a list
    is returned as it is under [data.patterns], anything else is answered
    with 500 and the text of the value. *)
Theorem get_patterns_pass_through
    (H : host) (platform : string) (str_val : pyval -> string) (w : world) :
  platform = "darwin" \/ platform = "win32" ->
  let result := fabric_tool H (add_log INFO "Retrieving patterns" w) "--list" in
  fst (interp H (get_patterns platform str_val) w)
  = match result with
    | VList items => inr (VDict [("data", VDict [("patterns", VList items)])])
    | _ => inl (HTTPException 500 (str_val result))
    end.
Proof.
  intros [-> | ->]; cbv zeta; cbn;
    destruct (fabric_tool H _ "--list"); reflexivity.
Qed.

Lemma get_patterns_pass_through_witness :
  fst (interp (Examples.host_ok "out") (get_patterns "darwin" Examples.str_val) empty_world)
  = inr (VDict [("data", VDict [("patterns",
                                 VList [VStr "summarize"; VStr "extract_wisdom"])])]).
Proof.
  apply (get_patterns_pass_through (Examples.host_ok "out") "darwin" Examples.str_val
           empty_world).
  left. reflexivity.
Defined.

(** A tool result that is not a list is answered with 500. *)
Example get_patterns_not_a_list :
  fst (interp Examples.host_failing (get_patterns "win32" Examples.str_val) empty_world)
  = inl (HTTPException 500 "boom").
Proof. reflexivity. Qed.

(** ** The bridged command line *)

#[local] Arguments String.append !_ _ / : simpl nomatch.

Lemma outside_quotes_from_app_quote_free (inside : bool) (s t : string) :
  quote_free s = true ->
  outside_quotes_from inside (s +:+ t)
  = (if inside then EmptyString else s) +:+ outside_quotes_from inside t.
Proof.
  unfold quote_free, PyStr.all_chars.
  induction s as [|c s IH];
    cbn [list_ascii_of_string forallb String.append outside_quotes_from]; intros Hs.
  - now destruct inside.
  - apply andb_prop in Hs as [Hc Hs]. apply negb_true_iff in Hc.
    rewrite Hc, (IH Hs). now destruct inside.
Qed.

(** With values free of single quotes, the wrapping the handler applies
    keeps every value inside a literal: what PowerShell parses as syntax is
    the fixed skeleton of the command. *)
Lemma fabric_command_skeleton (FABRIC_PATH path : string) (request : FabricRequest) :
  quote_free path = true ->
  quote_free FABRIC_PATH = true ->
  quote_free (fabric_pattern request) = true ->
  quote_free (fabric_model request) = true ->
  outside_quotes (fabric_powershell_command FABRIC_PATH path request)
  = "gc  | wsl -e " +:+ FABRIC_PATH +:+ " -sp  --model ".
Proof.
  intros Hpath Hfabric Hpattern Hmodel.
  unfold outside_quotes, fabric_powershell_command. cbn.
  rewrite (outside_quotes_from_app_quote_free true path _ Hpath). cbn.
  rewrite (outside_quotes_from_app_quote_free false FABRIC_PATH _ Hfabric).
  f_equal. cbn.
  rewrite (outside_quotes_from_app_quote_free true _ _ Hpattern). cbn.
  rewrite (outside_quotes_from_app_quote_free true _ _ Hmodel). reflexivity.
Qed.

(** C1 fails on the code: [sanitize_for_shell] is never applied.  The
    handlers place the temp-file path and the pattern between single quotes
    as they are, and [yt] interpolates the model bare.  A pattern holding a
    quote, or a model holding a separator, reaches PowerShell as syntax:
    the text outside the literals carries the [; calc] of the request. *)
Theorem bridged_command_interpolates_unquoted :
  let F := FABRIC_PATH Examples.G in
  let r := interp (Examples.host_ok "out")
             (fabric "win32" F Examples.str_exn Examples.command_string
                Examples.injecting_req)
             empty_world in
  let cmd := fabric_powershell_command F "/tmp/tmpa" Examples.injecting_req in
  let cmd_yt := yt_powershell_command F "/tmp/tmpa" Examples.injecting_yt_req in
  calls (snd r) = [[POWERSHELL; "-Command"; cmd]]
  /\ cmd = "gc '/tmp/tmpa' | wsl -e /home/u/.local/bin/fabric -sp 'x'; calc; '' --model 'm'"
  /\ cmd <> fabric_powershell_command_sanitized F "/tmp/tmpa" Examples.injecting_req
  /\ outside_quotes cmd = "gc  | wsl -e /home/u/.local/bin/fabric -sp ; calc;  --model "
  /\ cmd_yt = "gc '/tmp/tmpa' | wsl -e /home/u/.local/bin/fabric -sp 'p' --model m; calc"
  /\ outside_quotes cmd_yt = "gc  | wsl -e /home/u/.local/bin/fabric -sp  --model m; calc".
Proof.
  cbv zeta. repeat split; try reflexivity. discriminate.
Qed.

(** ** Temporary files of concurrent requests *)

Section Ownership.

Variable H : host.

Lemma mkstemp_loop_fresh attempts seq files name seq' :
  mkstemp_loop H attempts seq files = Some (name, seq') -> files !! name = None.
Proof.
  revert seq. induction attempts as [|n IH]; intros seq; cbn; [discriminate|].
  destruct (files !! tmp_name H seq) eqn:Hlook.
  - apply IH.
  - intros [= <- _]. exact Hlook.
Qed.

Lemma In_filter_neq (q path : string) (held : list string) :
  In q (List.filter (fun x => negb (String.eqb x path)) held) <->
  In q held /\ q <> path.
Proof.
  rewrite filter_In, negb_true_iff, String.eqb_neq. reflexivity.
Qed.

Lemma run_to_await_scoped {A : Type} (held : list string) (p : prog A) :
  scoped held p -> forall w, run_ok held w (run_to_await H p held w).
Proof.
  induction 1 as [held a | held e | held argv k Hk _ | held arg k _ IH
                 | held data k _ IHok _ IHerr
                 | held path k Hin _ IHok _ IHerr
                 | held lvl msg k _ IH | held msg k _ IH | held addr port k _ IH];
    intros w; cbn [run_to_await].
  - repeat split; auto. discriminate.
  - repeat split; auto. discriminate.
  - repeat split; auto. intros argv' k' [= _ <-]. exact Hk.
  - apply IH.
  - unfold do_tempfile.
    destruct (mkstemp_loop H (TMP_MAX H) (tmp_seq w) (fs w)) as [[name seq]|] eqn:Htmp.
    + apply mkstemp_loop_fresh in Htmp.
      specialize (IHok name (set_fs (insert name data) (set_tmp_seq seq w))).
      unfold run_ok in *.
      destruct (run_to_await H (k (inr name)) (name :: held) _) as [[st held'] w'].
      cbn [fs set_fs set_tmp_seq] in IHok.
      destruct IHok as (Ha & Hb & Hc & Hd).
      split; [|split; [|split]]; [| | |exact Hd].
      * intros q Hq Hex. apply Ha.
        -- intros [<- | Hq']; [|contradiction].
           rewrite Htmp in Hex. destruct Hex as [? [=]].
        -- rewrite lookup_insert_ne; [assumption|].
           intros <-. rewrite Htmp in Hex. destruct Hex as [? [=]].
      * intros Hall q Hq. apply Hb; [|assumption].
        intros q' [<- | Hq'].
        -- rewrite lookup_insert_eq. eauto.
        -- destruct (decide (name = q')) as [<- | Hne].
           ++ rewrite lookup_insert_eq. eauto.
           ++ rewrite lookup_insert_ne by assumption. auto.
      * intros q Hq. destruct (Hc q Hq) as [[<- | Hq'] | Hnone]; auto.
        destruct (decide (name = q)) as [<- | Hne]; [auto|].
        rewrite lookup_insert_ne in Hnone by assumption. auto.
    + specialize (IHerr FileExistsError (set_tmp_seq (tmp_seq w + TMP_MAX H) w)).
      exact IHerr.
  - unfold do_unlink. destruct (fs w !! path) eqn:Hpath.
    + specialize (IHok tt (set_fs (delete path) w)).
      unfold run_ok in *.
      destruct (run_to_await H (k (inr tt)) _ _) as [[st held'] w'].
      cbn [fs set_fs] in IHok.
      destruct IHok as (Ha & Hb & Hc & Hd).
      split; [|split; [|split]]; [| | |exact Hd].
      * intros q Hq Hex. apply Ha.
        -- rewrite In_filter_neq. tauto.
        -- rewrite lookup_delete_ne; [assumption|]. intros <-. contradiction.
      * intros Hall q Hq. apply Hb; [|assumption].
        intros q' Hq'. apply In_filter_neq in Hq' as [Hq' Hne].
        rewrite lookup_delete_ne by congruence. auto.
      * intros q Hq. destruct (Hc q Hq) as [Hq' | Hnone].
        -- apply In_filter_neq in Hq'. tauto.
        -- destruct (decide (path = q)) as [<- | Hne]; [auto|].
           rewrite lookup_delete_ne in Hnone by assumption. auto.
    + exact (IHerr (FileNotFoundError path) w).
  - apply (IH (add_log lvl msg w)).
  - apply (IH (add_console msg w)).
  - apply (IH (add_listener addr port w)).
Qed.

(** The two semantics agree: running a handler to completion is running
    it to its next [await], letting the host end the child, and going on. *)
Lemma interp_run_to_await {A : Type} (p : prog A) (held : list string) (w : world) :
  interp H p w =
  match run_to_await H p held w with
  | (Finished r, _, w') => (r, w')
  | (Awaiting argv k, _, w') => interp H (k (os_exec H w' argv)) w'
  end.
Proof.
  revert held w.
  induction p as [a | e | argv k _ | arg k IH | data k IH | path k IH
                 | lvl msg k IH | msg k IH | addr port k IH];
    intros held w; cbn [interp run_to_await]; try reflexivity; try apply IH.
  - destruct (do_tempfile H data w) as [r w1]. apply IH.
  - destruct (do_unlink path w) as [r w1]. apply IH.
Qed.

End Ownership.

(** Symbolic execution of a handler against [scoped]: split on the tests
    the handler makes, then follow its operations. *)
Ltac scoped_case :=
  match goal with
  | |- context [String.eqb ?a ?b] => destruct (String.eqb a b)
  | |- context [existsb ?f ?l] => destruct (existsb f l)
  | |- context [PyStr.truthy ?s] => destruct (PyStr.truthy s)
  | |- context [returncode ?cp =? 0] => destruct (returncode cp =? 0)
  | |- context [of_result ?r] => destruct r
  | |- scoped _ (match ?v with VList _ => _ | _ => _ end) => destruct v
  | |- context [match ?e with CalledProcessError _ _ _ => _ | _ => _ end] =>
      is_var e; destruct e
  end.

Ltac scoped_walk :=
  unfold http_500; cbn;
  repeat first
    [ apply scoped_Ret | apply scoped_Raise
    | apply scoped_Logging | apply scoped_Print | apply scoped_Listen
    | apply scoped_Spawn; intros ?; cbn
    | apply scoped_ExecFabric; intros ?; cbn
    | apply scoped_NamedTemporaryFile; intros ?; cbn
    | apply scoped_Unlink; [cbn; auto | intros ?; cbn | intros ?; cbn]
    | progress (scoped_case; cbn) ].

Section ServerFacts.

Variable H : host.
Variable platform : string.
Variable G : globals.
Variable str_exn : exn -> string.
Variable str_val : pyval -> string.
Variable str_type : pyval -> string.
Variable command_string : list string -> string.

Abbreviation handler' := (handler platform G str_exn str_val str_type command_string).
Abbreviation sys_step' :=
  (sys_step H platform G str_exn str_val str_type command_string).
Abbreviation run_events' :=
  (run_events H platform G str_exn str_val str_type command_string).

(** Every handler removes only the temporary file it has created. *)
Lemma handler_scoped (r : request) : scoped [] (handler' r).
Proof.
  destruct r as [q | | q | q |]; unfold handler.
  - unfold fabric. scoped_walk.
  - unfold get_models. scoped_walk.
  - unfold set_model. scoped_walk.
  - unfold yt. scoped_walk.
  - unfold get_patterns. scoped_walk.
Qed.

Lemma boot_inv (w : world) : sys_inv (boot w).
Proof. split; cbn; intros; discriminate. Qed.

(** Replacing or adding the task at position [i] by the outcome of a
    [scoped] step keeps the invariant. *)
Lemma inv_update (s : system) (pool' : list task) (w' : world)
    (i : nat) (t' : task) (held : list string) :
  sys_inv s ->
  (forall j t, pool' !! j = Some t ->
               (j = i /\ t = t') \/ (j <> i /\ pool s !! j = Some t)) ->
  (forall t, pool s !! i = Some t -> t_held t = held) ->
  (pool s !! i = None -> held = []) ->
  run_ok held (sys_world s) (t_status t', t_held t', w') ->
  sys_inv {| sys_world := w'; pool := pool' |}.
Proof.
  intros [Hexist Hdisj Hscoped] Hpos Hheld Hnone (Ha & Hb & Hc & Hd).
  assert (Hheld_exist : forall q, In q held -> is_Some (fs (sys_world s) !! q)).
  { intros q Hq. destruct (pool s !! i) as [ti|] eqn:Hi.
    - apply (Hexist i ti q Hi). now rewrite (Hheld ti eq_refl).
    - rewrite (Hnone eq_refl) in Hq. contradiction. }
  assert (Hother : forall j t q, j <> i -> pool s !! j = Some t ->
                                 In q (t_held t) -> ~ In q held).
  { intros j t q Hne Hj Hq Hq'. destruct (pool s !! i) as [ti|] eqn:Hi.
    - apply (Hdisj j i t ti q Hne Hj Hi Hq). now rewrite (Hheld ti eq_refl).
    - rewrite (Hnone eq_refl) in Hq'. contradiction. }
  assert (Hnew : forall j t q, j <> i -> pool s !! j = Some t ->
                               In q (t_held t) -> ~ In q (t_held t')).
  { intros j t q Hne Hj Hq Hq'. destruct (Hc q Hq') as [Hold | Hfresh].
    - exact (Hother j t q Hne Hj Hq Hold).
    - destruct (Hexist j t q Hj Hq) as [x Hx]. congruence. }
  split; cbn [pool sys_world].
  - intros j t p Hj Hp. destruct (Hpos j t Hj) as [[-> ->] | [Hne Hold]].
    + exact (Hb Hheld_exist p Hp).
    + apply Ha; [exact (Hother j t p Hne Hold Hp) | exact (Hexist j t p Hold Hp)].
  - intros j1 j2 t1 t2 p Hne H1 H2 Hp1 Hp2.
    destruct (Hpos j1 t1 H1) as [[-> ->] | [Hne1 Hold1]];
      destruct (Hpos j2 t2 H2) as [[-> ->] | [Hne2 Hold2]].
    + congruence.
    + exact (Hnew j2 t2 p Hne2 Hold2 Hp2 Hp1).
    + exact (Hnew j1 t1 p Hne1 Hold1 Hp1 Hp2).
    + exact (Hdisj j1 j2 t1 t2 p Hne Hold1 Hold2 Hp1 Hp2).
  - intros j t argv k Hj Hst. destruct (Hpos j t Hj) as [[-> ->] | [Hne Hold]].
    + exact (Hd argv k Hst).
    + exact (Hscoped j t argv k Hold Hst).
Qed.

Lemma sys_step_inv (s : system) (ev : event) : sys_inv s -> sys_inv (sys_step' s ev).
Proof.
  intros Hinv. destruct ev as [r | i cp]; cbn [sys_step].
  - unfold start_task.
    pose proof (run_to_await_scoped H [] (handler' r) (handler_scoped r) (sys_world s))
      as Hok.
    destruct (run_to_await H (handler' r) [] (sys_world s)) as [[st held'] w'].
    apply (inv_update s _ w' (length (pool s))
             {| t_status := st; t_held := held' |} [] Hinv).
    + intros j t Hj. apply lookup_app_Some in Hj as [Hj | [Hlen Hj]].
      * right. split; [|assumption]. apply lookup_lt_Some in Hj. lia.
      * left. apply list_lookup_singleton_Some in Hj as [Hz <-].
        split; [lia | reflexivity].
    + intros t Ht. apply lookup_lt_Some in Ht. lia.
    + reflexivity.
    + exact Hok.
  - destruct (pool s !! i) as [[st held]|] eqn:Hi; [|assumption].
    destruct st as [res | argv k]; [assumption|].
    unfold start_task.
    pose proof (inv_scoped s Hinv i _ argv k Hi eq_refl cp) as Hsc.
    cbn [t_held] in Hsc.
    pose proof (run_to_await_scoped H held (k cp) Hsc (sys_world s)) as Hok.
    destruct (run_to_await H (k cp) held (sys_world s)) as [[st' held'] w'].
    apply (inv_update s _ w' i {| t_status := st'; t_held := held' |} held Hinv).
    + intros j t Hj. apply list_lookup_insert_Some in Hj as [(<- & <- & _) | [Hne Hj]].
      * left. split; reflexivity.
      * right. split; [congruence | assumption].
    + intros t Ht. rewrite Hi in Ht. now injection Ht as <-.
    + intros Hn. congruence.
    + exact Hok.
Qed.

Lemma run_events_inv (evs : list event) (s : system) :
  sys_inv s -> sys_inv (run_events' evs s).
Proof.
  revert s. induction evs as [|ev evs IH]; intros s Hinv; [assumption|].
  cbn. apply IH, sys_step_inv, Hinv.
Qed.

(** C8: in every state the server reaches, two requests never hold the
    same temporary file: the paths created by requests in flight at the
    same time are distinct. *)
Theorem concurrent_temp_paths_distinct
    (w0 : world) (evs : list event) (i j : nat) (ti tj : task) (p q : string) :
  let s := run_events' evs (boot w0) in
  i <> j ->
  pool s !! i = Some ti ->
  pool s !! j = Some tj ->
  In p (t_held ti) ->
  In q (t_held tj) ->
  p <> q.
Proof.
  cbv zeta. intros Hne Hi Hj Hp Hq ->.
  exact (inv_disjoint _ (run_events_inv evs (boot w0) (boot_inv w0))
           i j ti tj q Hne Hi Hj Hp Hq).
Qed.

End ServerFacts.

Lemma concurrent_temp_paths_distinct_witness :
  let s := run_events (Examples.host_ok "out") "win32" Examples.G Examples.str_exn
             Examples.str_val Examples.str_type Examples.command_string
             [Accept (ReqFabric (Examples.fabric_req "first payload"));
              Accept (ReqYt Examples.yt_req);
              Accept (ReqFabric (Examples.fabric_req "second payload"))]
             (boot empty_world) in
  map t_held (pool s) = [["/tmp/tmpa"]; []; ["/tmp/tmpb"]]
  /\ "/tmp/tmpa" <> "/tmp/tmpb".
Proof.
  cbv zeta. split; [reflexivity|].
  eapply (concurrent_temp_paths_distinct (Examples.host_ok "out") "win32" Examples.G
            Examples.str_exn Examples.str_val Examples.str_type Examples.command_string
            empty_world
            [Accept (ReqFabric (Examples.fabric_req "first payload"));
             Accept (ReqYt Examples.yt_req);
             Accept (ReqFabric (Examples.fabric_req "second payload"))]
            0%nat 2%nat).
  - lia.
  - reflexivity.
  - reflexivity.
  - cbn. left. reflexivity.
  - cbn. left. reflexivity.
Defined.

(** * Further properties of the code *)

(** ** The model-listing transform on arbitrary input *)

Lemma keep_true_inv (item : pyval) :
  Models.keep item = inr true ->
  exists s, Models.get_name item = inr (VStr s)
            /\ Models.is_header s = false /\ Models.is_blank s = false.
Proof.
  unfold Models.keep.
  destruct (Models.has_name item) as [e | [|]]; try discriminate.
  destruct (Models.get_name item) as [e | v]; try discriminate.
  destruct (Models.not_in_headers v) eqn:Hh; try discriminate.
  destruct v as [| | |s| |]; cbn; try discriminate.
  intros [= Hs]. exists s. repeat split.
  - cbn in Hh. unfold Models.is_header. now apply negb_true_iff in Hh.
  - unfold Models.is_blank. now rewrite Hs.
Qed.

Lemma get_name_record_name (item : pyval) (s : string) :
  Models.get_name item = inr (VStr s) -> Models.record_name item = Some s.
Proof.
  destruct item as [| | | | |d]; cbn; try discriminate.
  destruct (dict_get "name" d) as [v|]; [|discriminate].
  now intros [= ->].
Qed.

Lemma filtered_models_cons_inv (item : pyval) (rest out : list pyval) :
  Models.filtered_models (item :: rest) = inr out ->
  (Models.keep item = inr false /\ Models.filtered_models rest = inr out)
  \/ (exists s out', Models.keep item = inr true
                     /\ Models.get_name item = inr (VStr s)
                     /\ Models.is_header s = false /\ Models.is_blank s = false
                     /\ Models.filtered_models rest = inr out'
                     /\ out = name_record s :: out').
Proof.
  cbn [Models.filtered_models].
  destruct (Models.keep item) as [e | [|]] eqn:Hkeep; try discriminate.
  - destruct (keep_true_inv item Hkeep) as (s & Hname & Hh & Hb).
    rewrite Hname.
    destruct (Models.filtered_models rest) as [e | out']; [discriminate|].
    intros [= <-]. right. exists s, out'. repeat split; assumption.
  - intros Hrest. left. split; [reflexivity | assumption].
Qed.

(** Whatever the tool lists, a listing that the transform accepts comes
    back as records with the single key [name], bound to a string that is
    neither a header name nor blank. *)
Theorem filtered_models_output_records (result out : list pyval) :
  Models.filtered_models result = inr out ->
  forallb is_model_record out = true.
Proof.
  revert out. induction result as [|item rest IH]; intros out.
  - now intros [= <-].
  - intros Hrun.
    destruct (filtered_models_cons_inv item rest out Hrun)
      as [[_ Hrest] | (s & out' & _ & _ & Hh & Hb & Hrest & ->)].
    + exact (IH out Hrest).
    + unfold name_record. cbn [forallb is_model_record].
      rewrite Hh, Hb, (IH out' Hrest). reflexivity.
Qed.

Lemma filtered_models_output_records_witness :
  forallb is_model_record
    [VDict [("name", VStr "gpt-4")]; VDict [("name", VStr "claude-3")]] = true.
Proof.
  exact (filtered_models_output_records Models.example_input _ eq_refl).
Defined.

(** The transform is idempotent: applied to its own output it returns
    that output unchanged. *)
Theorem filtered_models_idempotent (result out : list pyval) :
  Models.filtered_models result = inr out ->
  Models.filtered_models out = inr out.
Proof.
  revert out. induction result as [|item rest IH]; intros out.
  - now intros [= <-].
  - intros Hrun.
    destruct (filtered_models_cons_inv item rest out Hrun)
      as [[_ Hrest] | (s & out' & _ & _ & Hh & Hb & Hrest & ->)].
    + exact (IH out Hrest).
    + unfold name_record. cbn [Models.filtered_models].
      rewrite (keep_record [("name", VStr s)] s eq_refl), Hh, Hb.
      cbn. now rewrite (IH out' Hrest).
Qed.

Lemma filtered_models_idempotent_witness :
  Models.filtered_models
    [VDict [("name", VStr "gpt-4")]; VDict [("name", VStr "claude-3")]]
  = inr [VDict [("name", VStr "gpt-4")]; VDict [("name", VStr "claude-3")]].
Proof.
  exact (filtered_models_idempotent Models.example_input _ eq_refl).
Defined.

(** The transform never reorders, duplicates or invents: what it returns
    is a subsequence of the names of the records it was given, so it is
    never longer than its input. *)
Theorem filtered_models_subsequence (result out : list pyval) :
  Models.filtered_models result = inr out ->
  sublist out (map name_record (omap Models.record_name result))
  /\ (length out <= length result)%nat.
Proof.
  revert out. induction result as [|item rest IH]; intros out.
  - intros [= <-]. split; [constructor | reflexivity].
  - intros Hrun.
    destruct (filtered_models_cons_inv item rest out Hrun)
      as [[_ Hrest] | (s & out' & _ & Hname & _ & _ & Hrest & ->)].
    + destruct (IH out Hrest) as [Hsub Hlen]. split; [|cbn; lia].
      cbn [omap list_omap]. destruct (Models.record_name item); [|exact Hsub].
      cbn [map]. now apply sublist_cons.
    + destruct (IH out' Hrest) as [Hsub Hlen]. split; [|cbn; lia].
      cbn [omap list_omap]. rewrite (get_name_record_name item s Hname).
      cbn [map]. now apply sublist_skip.
Qed.

Lemma filtered_models_subsequence_witness :
  sublist [VDict [("name", VStr "gpt-4")]; VDict [("name", VStr "claude-3")]]
          (map name_record (omap Models.record_name Models.example_input))
  /\ (2 <= length Models.example_input)%nat.
Proof.
  exact (filtered_models_subsequence Models.example_input _ eq_refl).
Defined.

Lemma filtered_models_prefix_error (pre rest : list pyval) (e : exn) :
  Forall Models.entry_ok pre ->
  Models.filtered_models rest = inl e ->
  Models.filtered_models (pre ++ rest) = inl e.
Proof.
  intros Hpre Hrest. induction Hpre as [|item pre Hitem _ IH]; [exact Hrest|].
  cbn [app Models.filtered_models].
  destruct item as [| | |s| |d]; cbn [Models.entry_ok] in Hitem; try contradiction.
  - now rewrite (keep_header_string s Hitem).
  - destruct (dict_get "name" d) as [[| | |s| |]|] eqn:Hd; try contradiction.
    + rewrite (keep_record d s Hd).
      destruct (negb (Models.is_header s) && negb (Models.is_blank s)); [|exact IH].
      unfold Models.get_name. now rewrite Hd, IH.
    + now rewrite (keep_record_without_name d Hd).
Qed.

(** A record whose [name] is not a string stops the whole listing with
    [AttributeError], wherever it stands behind well-formed entries and
    whatever follows it: nothing of the listing is returned. *)
Theorem filtered_models_non_string_name
    (pre post : list pyval) (d : list (string * pyval)) (v : pyval) :
  Forall Models.entry_ok pre ->
  dict_get "name" d = Some v ->
  is_VStr v = false ->
  Models.filtered_models (pre ++ VDict d :: post) = inl AttributeError.
Proof.
  intros Hpre Hd Hv. apply filtered_models_prefix_error; [exact Hpre|].
  cbn [Models.filtered_models]. unfold Models.keep, Models.has_name, Models.get_name.
  rewrite Hd. destruct v; try discriminate Hv; reflexivity.
Qed.

Lemma filtered_models_non_string_name_witness :
  Models.filtered_models
    ([VStr "GPT Models:"; VDict [("name", VStr "gpt-4")]]
     ++ VDict [("name", VInt 4)] :: [VDict [("name", VStr "claude-3")]])
  = inl AttributeError.
Proof.
  apply (filtered_models_non_string_name
           [VStr "GPT Models:"; VDict [("name", VStr "gpt-4")]]
           [VDict [("name", VStr "claude-3")]] [("name", VInt 4)] (VInt 4)).
  - repeat constructor.
  - reflexivity.
  - reflexivity.
Defined.

(** An entry that is a string or a list containing [name], or that is no
    container at all, stops the whole listing with [TypeError]. *)
Theorem filtered_models_type_error (pre post : list pyval) (item : pyval) :
  Forall Models.entry_ok pre ->
  type_error_entry item = true ->
  Models.filtered_models (pre ++ item :: post) = inl TypeError.
Proof.
  intros Hpre Hitem. apply filtered_models_prefix_error; [exact Hpre|].
  cbn [Models.filtered_models]. unfold Models.keep.
  destruct item as [| | |s|l|d]; cbn [type_error_entry] in Hitem;
    try discriminate Hitem; cbn [Models.has_name Models.get_name];
    try rewrite Hitem; reflexivity.
Qed.

Lemma filtered_models_type_error_witness :
  Models.filtered_models
    ([VDict [("name", VStr "gpt-4")]] ++ VStr "Unnamed:" :: [VStr "Claude Models:"])
  = inl TypeError.
Proof.
  apply (filtered_models_type_error [VDict [("name", VStr "gpt-4")]]
           [VStr "Claude Models:"] (VStr "Unnamed:")).
  - repeat constructor.
  - reflexivity.
Defined.

Lemma keep_raises (item : pyval) (e : exn) :
  Models.keep item = inl e -> e = TypeError \/ e = AttributeError.
Proof.
  unfold Models.keep.
  destruct item as [| | |s|l|d]; cbn [Models.has_name Models.get_name].
  - intros [= <-]. now left.
  - intros [= <-]. now left.
  - intros [= <-]. now left.
  - destruct (PyStr.contains "name" s); [|discriminate]. intros [= <-]. now left.
  - destruct (existsb _ l); [|discriminate]. intros [= <-]. now left.
  - destruct (dict_get "name" d) as [v|]; [|discriminate].
    destruct (Models.not_in_headers v); [|discriminate].
    destruct v; cbn; try discriminate; intros [= <-]; now right.
Qed.

Lemma transform_exceptions (result : list pyval) (e : exn) :
  Models.filtered_models result = inl e -> e = TypeError \/ e = AttributeError.
Proof.
  induction result as [|item rest IH]; [discriminate|].
  cbn [Models.filtered_models].
  destruct (Models.keep item) as [e' | [|]] eqn:Hkeep.
  - intros [= <-]. exact (keep_raises item e' Hkeep).
  - destruct (keep_true_inv item Hkeep) as (s & Hname & _). rewrite Hname.
    destruct (Models.filtered_models rest) as [e' | out]; [|discriminate].
    intros [= <-]. now apply IH.
  - exact IH.
Qed.

(** The only exceptions the transform raises are [TypeError] and
    [AttributeError]; the guard ['name' in item] rules out [KeyError]. *)
Theorem filtered_models_raises (result : list pyval) (e : exn) :
  Models.filtered_models result = inl e -> e = TypeError \/ e = AttributeError.
Proof.
  induction result as [|item rest IH]; [discriminate|].
  cbn [Models.filtered_models].
  destruct (Models.keep item) as [e' | [|]] eqn:Hkeep.
  - intros [= <-]. exact (keep_raises item e' Hkeep).
  - destruct (keep_true_inv item Hkeep) as (s & Hname & _). rewrite Hname.
    destruct (Models.filtered_models rest) as [e' | out]; [|discriminate].
    intros [= <-]. now apply IH.
  - exact IH.
Qed.

Lemma filtered_models_raises_witness :
  TypeError = TypeError \/ TypeError = AttributeError.
Proof.
  exact (filtered_models_raises [VStr "Renamed Models:"] TypeError eq_refl).
Defined.

(** ** Every handler, on every platform *)

(** Symbolic execution of a handler under [interp]: split on the tests the
    handler makes and on what the host answers. *)
Ltac interp_case :=
  match goal with
  | |- context [String.eqb ?a ?b] => destruct (String.eqb a b) eqn:?
  | |- context [PyStr.truthy ?s] => destruct (PyStr.truthy s) eqn:?
  | |- context [returncode ?cp =? 0] => destruct (returncode cp =? 0) eqn:?
  | |- context [mkstemp_loop ?H ?a ?b ?c] =>
      destruct (mkstemp_loop H a b c) as [[? ?]|] eqn:?
  | |- context [match fabric_tool ?H ?w ?a with VList _ => _ | _ => _ end] =>
      destruct (fabric_tool H w a) eqn:?
  | |- context [Models.filtered_models ?l] =>
      destruct (Models.filtered_models l) eqn:?
  end.

Ltac interp_walk :=
  repeat (cbn; unfold do_tempfile, do_unlink; cbn;
          rewrite ?lookup_insert_eq; try interp_case).

Ltac solve_calls :=
  first [ exists []; rewrite app_nil_r; split; [reflexivity | cbn; lia]
        | rewrite <- ?app_assoc; eexists; split; [reflexivity | cbn; lia] ].

Ltac solve_restored :=
  first [ discriminate | reflexivity
        | intros _;
          match goal with
          | Htmp : mkstemp_loop _ _ _ _ = Some _ |- _ =>
              apply mkstemp_loop_fresh in Htmp; now apply delete_insert_id
          end ].

Section EveryHandler.

Variable H : host.
Variable platform : string.
Variable G : globals.
Variable str_exn : exn -> string.
Variable str_val : pyval -> string.
Variable str_type : pyval -> string.
Variable command_string : list string -> string.

Abbreviation run_handler r w :=
  (interp H (handler platform G str_exn str_val str_type command_string r) w).

Lemma handler_escapes_ok (r : request) (w : world) : escapes_ok (run_handler r w).
Proof.
  unfold escapes_ok.
  destruct r as [q | | q | q |]; unfold handler.
  - unfold fabric, http_500. interp_walk; rewrite ?last_snoc; eauto.
  - unfold get_models. interp_walk; rewrite ?last_snoc; eauto;
    match goal with
    | He : Models.filtered_models _ = inl ?e |- _ =>
        destruct (transform_exceptions _ _ He) as [-> | ->]; exact I
    end.
  - unfold set_model, http_500. interp_walk; rewrite ?last_snoc; eauto.
  - unfold yt, http_500. interp_walk; rewrite ?last_snoc; eauto.
  - unfold get_patterns. interp_walk; rewrite ?last_snoc; eauto.
Qed.

(** The handlers that await [run_command] never let the failure of a
    child or a missing file reach their caller: their [except] clause turns
    every [CalledProcessError] into an answer, and [os.unlink] is only
    reached for the file the same request has written. *)
Theorem guarded_handler_never_leaks_child_failure (r : request) (w : world) :
  run_command_bound r <> None ->
  (forall rc cmd err, fst (run_handler r w) <> inl (CalledProcessError rc cmd err))
  /\ (forall path, fst (run_handler r w) <> inl (FileNotFoundError path)).
Proof.
  intros _. pose proof (handler_escapes_ok r w) as Hok. unfold escapes_ok in Hok.
  split; intros; intros Heq; rewrite Heq in Hok; exact Hok.
Qed.

(** Every [HTTPException] a handler raises has status 500, and the last
    line logged before it is an [ERROR] line. *)
Theorem handler_http_error_is_500_and_logged
    (r : request) (w : world) (code : Z) (detail : string) :
  fst (run_handler r w) = inl (HTTPException code detail) ->
  code = 500 /\ exists msg, last (log (snd (run_handler r w))) = Some (ERROR, msg).
Proof.
  intros Heq. pose proof (handler_escapes_ok r w) as Hok.
  unfold escapes_ok in Hok. rewrite Heq in Hok. exact Hok.
Qed.

(** No retries: [yt] awaits [run_command] at most twice, [fabric] and
    [set_model] at most once, and the children spawned before stay on
    record in their order. *)
Theorem guarded_handler_spawn_bound (r : request) (w : world) (n : nat) :
  run_command_bound r = Some n ->
  exists extra, calls (snd (run_handler r w)) = calls w ++ extra
                /\ (length extra <= n)%nat.
Proof.
  destruct r as [q | | q | q |]; cbn [run_command_bound]; intros [= <-];
    unfold handler.
  - unfold fabric, http_500. interp_walk; solve_calls.
  - unfold set_model, http_500. interp_walk; solve_calls.
  - unfold yt, http_500. interp_walk; solve_calls.
Qed.

(** A request that is answered with a result leaves the file system as it
    found it: the temporary file of a bridged request is created on a
    name that was free and removed before the answer. *)
Theorem handler_success_restores_files (r : request) (w : world) (v : pyval) :
  fst (run_handler r w) = inr v -> fs (snd (run_handler r w)) = fs w.
Proof.
  destruct r as [q | | q | q |]; unfold handler.
  - unfold fabric, http_500. interp_walk; solve_restored.
  - unfold get_models. interp_walk; solve_restored.
  - unfold set_model, http_500. interp_walk; solve_restored.
  - unfold yt, http_500. interp_walk; solve_restored.
  - unfold get_patterns. interp_walk; solve_restored.
Qed.

(** On a platform other than [darwin] and [win32] no handler spawns a
    child or touches a file: [get_models] answers 500, the others fail on
    the local variable their platform branches never bound. *)
Theorem handler_on_unsupported_platform (r : request) (w : world) :
  platform <> "darwin" -> platform <> "win32" ->
  fst (run_handler r w) = inl (unsupported_answer r)
  /\ calls (snd (run_handler r w)) = calls w
  /\ fs (snd (run_handler r w)) = fs w.
Proof.
  intros Hd Hw. apply String.eqb_neq in Hd, Hw.
  destruct r as [q | | q | q |]; unfold handler.
  - unfold fabric. rewrite Hd, Hw. cbn. repeat split.
  - unfold get_models. cbn. rewrite Hd, Hw. cbn. repeat split.
  - unfold set_model. rewrite Hd, Hw. cbn. repeat split.
  - unfold yt. rewrite Hd, Hw. cbn. repeat split.
  - unfold get_patterns. rewrite Hd, Hw. cbn. repeat split.
Qed.

End EveryHandler.

Lemma guarded_handler_never_leaks_child_failure_witness :
  let res := interp Examples.host_failing
               (handler "win32" Examples.G Examples.str_exn Examples.str_val
                  Examples.str_type Examples.command_string
                  (ReqFabric (Examples.fabric_req "some text")))
               empty_world in
  (forall rc cmd err, fst res <> inl (CalledProcessError rc cmd err))
  /\ (forall path, fst res <> inl (FileNotFoundError path)).
Proof.
  apply (guarded_handler_never_leaks_child_failure Examples.host_failing "win32"
           Examples.G Examples.str_exn Examples.str_val Examples.str_type
           Examples.command_string (ReqFabric (Examples.fabric_req "some text"))
           empty_world).
  discriminate.
Defined.

Lemma guarded_handler_spawn_bound_witness :
  let res := interp Examples.host_second_fails
               (handler "win32" Examples.G Examples.str_exn Examples.str_val
                  Examples.str_type Examples.command_string (ReqYt Examples.yt_req))
               empty_world in
  exists extra, calls (snd res) = calls empty_world ++ extra
                /\ (length extra <= 2)%nat.
Proof.
  apply (guarded_handler_spawn_bound Examples.host_second_fails "win32"
           Examples.G Examples.str_exn Examples.str_val Examples.str_type
           Examples.command_string (ReqYt Examples.yt_req) empty_world 2%nat).
  reflexivity.
Defined.

Lemma handler_http_error_is_500_and_logged_witness :
  let res := interp Examples.host_failing
               (handler "win32" Examples.G Examples.str_exn Examples.str_val
                  Examples.str_type Examples.command_string
                  (ReqSetModel {| model_model := "gpt-4" |}))
               empty_world in
  fst res = inl (HTTPException 500 (Examples.str_exn
                   (CalledProcessError 2
                      (Examples.command_string
                         (set_model_argv "win32" (FABRIC_PATH Examples.G)
                            {| model_model := "gpt-4" |}))
                      "boom")))
  /\ 500 = 500
  /\ exists msg, last (log (snd res)) = Some (ERROR, msg).
Proof.
  cbv zeta. split; [reflexivity|].
  eapply (handler_http_error_is_500_and_logged Examples.host_failing "win32"
            Examples.G Examples.str_exn Examples.str_val Examples.str_type
            Examples.command_string (ReqSetModel {| model_model := "gpt-4" |})
            empty_world 500).
  reflexivity.
Defined.

Lemma handler_success_restores_files_witness :
  let res := interp (Examples.host_ok "summary")
               (handler "win32" Examples.G Examples.str_exn Examples.str_val
                  Examples.str_type Examples.command_string
                  (ReqFabric (Examples.fabric_req "some text")))
               empty_world in
  fst res = inr (output_json "summary") /\ fs (snd res) = fs empty_world.
Proof.
  cbv zeta. split; [reflexivity|].
  apply (handler_success_restores_files (Examples.host_ok "summary") "win32"
           Examples.G Examples.str_exn Examples.str_val Examples.str_type
           Examples.command_string (ReqFabric (Examples.fabric_req "some text"))
           empty_world (output_json "summary")).
  reflexivity.
Defined.

Lemma handler_on_unsupported_platform_witness :
  let res := interp (Examples.host_ok "out")
               (handler "linux" Examples.G Examples.str_exn Examples.str_val
                  Examples.str_type Examples.command_string (ReqYt Examples.yt_req))
               empty_world in
  fst res = inl (UnboundLocalError "output")
  /\ calls (snd res) = calls empty_world
  /\ fs (snd res) = fs empty_world.
Proof.
  apply (handler_on_unsupported_platform (Examples.host_ok "out") "linux" Examples.G
           Examples.str_exn Examples.str_val Examples.str_type Examples.command_string
           (ReqYt Examples.yt_req) empty_world).
  - discriminate.
  - discriminate.
Defined.

(** ** Single handlers *)

Section SingleHandlers.

Variable H : host.
Variable FABRIC_PATH : string.
Variable str_exn : exn -> string.
Variable str_val : pyval -> string.
Variable str_type : pyval -> string.
Variable command_string : list string -> string.

(** Natively [fabric] spawns one child whose arguments are the pattern,
    the payload and the model as they came, each an argument of its own,
    be they empty or full of quotes; no file is written.  The answer is
    the child's standard output, or 500 with the text of its failure. *)
Theorem fabric_native_run (request : FabricRequest) (w : world) :
  let argv := fabric_native_argv FABRIC_PATH request in
  let w1 := add_call argv
              (add_log INFO ("Running Fabric command with pattern: "
                             +:+ fabric_pattern request) w) in
  let cp := os_exec H w1 argv in
  let res := interp H (fabric "darwin" FABRIC_PATH str_exn command_string request) w in
  calls (snd res) = calls w ++ [argv]
  /\ fs (snd res) = fs w
  /\ tmp_seq (snd res) = tmp_seq w
  /\ fst res = if returncode cp =? 0 then inr (output_json (stdout cp))
               else inl (HTTPException 500
                           (str_exn (failure_of command_string argv cp))).
Proof.
  cbv zeta. unfold fabric, fabric_native_argv, failure_of, http_500. cbn.
  case_returncode; cbn; repeat split; reflexivity.
Qed.

(** [set_model] spawns exactly one child on either platform, the tool
    itself natively and PowerShell on the bridged one, writes no file, and
    answers with the child's output or with 500. *)
Theorem set_model_run (platform : string) (request : Model) (w : world) :
  platform = "darwin" \/ platform = "win32" ->
  let argv := set_model_argv platform FABRIC_PATH request in
  let w1 := add_call argv
              (add_log INFO ("Setting model to: " +:+ model_model request) w) in
  let cp := os_exec H w1 argv in
  let res := interp H (set_model platform FABRIC_PATH str_exn command_string request) w in
  calls (snd res) = calls w ++ [argv]
  /\ fs (snd res) = fs w
  /\ fst res = if returncode cp =? 0 then inr (output_json (stdout cp))
               else inl (HTTPException 500
                           (str_exn (failure_of command_string argv cp))).
Proof.
  intros [-> | ->]; cbv zeta;
    unfold set_model, set_model_argv, failure_of, http_500; cbn;
    case_returncode; cbn; repeat split; reflexivity.
Qed.

(** [get_models] on a supported platform: anything but a list is answered
    with 500 and a fixed text; a list goes through the transform, whose
    result is returned under [data.models] and whose exception, if it
    raises one, reaches the caller as it is, not as a 500. *)
Theorem get_models_run (platform : string) (w : world) :
  platform = "darwin" \/ platform = "win32" ->
  let result := fabric_tool H (add_log INFO "Retrieving models" w) "--listmodels" in
  fst (interp H (get_models platform str_val str_type) w)
  = match result with
    | VList items =>
        match Models.filtered_models items with
        | inr models => inr (VDict [("data", VDict [("models", VList models)])])
        | inl e => inl e
        end
    | _ => inl (HTTPException 500 "Unexpected result format from execute_fabric_command")
    end.
Proof.
  intros [-> | ->]; cbv zeta; unfold get_models; cbn;
    destruct (fabric_tool H _ "--listmodels"); cbn; try reflexivity;
    destruct (Models.filtered_models _); reflexivity.
Qed.

(** When every name [tempfile] proposes is taken, a bridged [fabric]
    request with a payload ends in [FileExistsError], which the handler
    does not catch: no child is spawned and no file is written. *)
Theorem fabric_no_free_temp_name (request : FabricRequest) (w : world) :
  PyStr.truthy (fabric_data request) = true ->
  mkstemp_loop H (TMP_MAX H) (tmp_seq w) (fs w) = None ->
  let res := interp H (fabric "win32" FABRIC_PATH str_exn command_string request) w in
  fst res = inl FileExistsError
  /\ calls (snd res) = calls w
  /\ fs (snd res) = fs w.
Proof.
  intros Hdata Htmp. cbv zeta. unfold fabric. cbn. rewrite Hdata. cbn.
  unfold do_tempfile. cbn. rewrite Htmp. cbn. repeat split.
Qed.

End SingleHandlers.

Lemma set_model_run_witness :
  let request := {| model_model := "gpt-4" |} in
  let argv := [POWERSHELL; "-Command";
               "wsl -e /home/u/.local/bin/fabric --changeDefaultModel 'gpt-4'"] in
  let res := interp (Examples.host_ok "done")
               (set_model "win32" (FABRIC_PATH Examples.G) Examples.str_exn
                  Examples.command_string request)
               empty_world in
  calls (snd res) = calls empty_world ++ [argv]
  /\ fs (snd res) = fs empty_world
  /\ fst res = inr (output_json "done").
Proof.
  apply (set_model_run (Examples.host_ok "done") (FABRIC_PATH Examples.G)
           Examples.str_exn Examples.command_string "win32"
           {| model_model := "gpt-4" |} empty_world).
  right. reflexivity.
Defined.

Lemma get_models_run_witness :
  fst (interp MoreExamples.host_one_name
         (get_models "darwin" Examples.str_val Examples.str_type) empty_world)
  = inl TypeError.
Proof.
  apply (get_models_run MoreExamples.host_one_name Examples.str_val Examples.str_type
           "darwin" empty_world).
  left. reflexivity.
Defined.

Lemma fabric_no_free_temp_name_witness :
  let res := interp MoreExamples.host_one_name
               (fabric "win32" (FABRIC_PATH Examples.G) Examples.str_exn
                  Examples.command_string (Examples.fabric_req "some text"))
               MoreExamples.world_name_taken in
  fst res = inl FileExistsError
  /\ calls (snd res) = calls MoreExamples.world_name_taken
  /\ fs (snd res) = fs MoreExamples.world_name_taken.
Proof.
  apply (fabric_no_free_temp_name MoreExamples.host_one_name
           (FABRIC_PATH Examples.G) Examples.str_exn Examples.command_string
           (Examples.fabric_req "some text") MoreExamples.world_name_taken).
  - reflexivity.
  - reflexivity.
Defined.

(** Natively no handler writes or removes a file, whether it answers or
    fails: the file system and the position in the sequence of temporary
    names are as before. *)
Theorem native_handlers_leave_files_alone
    (H : host) (G : globals) (str_exn : exn -> string)
    (str_val str_type : pyval -> string) (command_string : list string -> string)
    (r : request) (w : world) :
  let res := interp H (handler "darwin" G str_exn str_val str_type command_string r) w in
  fs (snd res) = fs w /\ tmp_seq (snd res) = tmp_seq w.
Proof.
  cbv zeta. destruct r as [q | | q | q |]; unfold handler.
  - unfold fabric, http_500. interp_walk; split; reflexivity.
  - unfold get_models. interp_walk; split; reflexivity.
  - unfold set_model, http_500. interp_walk; split; reflexivity.
  - unfold yt, http_500. interp_walk; split; reflexivity.
  - unfold get_patterns. interp_walk; split; reflexivity.
Qed.

(** ** Requests in flight *)

Ltac tidy_walk :=
  unfold http_500; cbn;
  repeat first
    [ apply tidy_Ret | apply tidy_Raise
    | apply tidy_Logging | apply tidy_Print | apply tidy_Listen
    | apply tidy_Spawn; intros ?; cbn
    | apply tidy_ExecFabric; intros ?; cbn
    | apply tidy_NamedTemporaryFile; intros ?; cbn
    | apply tidy_Unlink; intros ?; cbn; rewrite ?String.eqb_refl; cbn
    | progress (scoped_case_tidy; cbn) ]
with scoped_case_tidy :=
  match goal with
  | |- context [String.eqb ?a ?b] => destruct (String.eqb a b)
  | |- context [existsb ?f ?l] => destruct (existsb f l)
  | |- context [PyStr.truthy ?s] => destruct (PyStr.truthy s)
  | |- context [returncode ?cp =? 0] => destruct (returncode cp =? 0)
  | |- context [of_result ?r] => destruct r
  | |- tidy _ (match ?v with VList _ => _ | _ => _ end) => destruct v
  | |- context [match ?e with CalledProcessError _ _ _ => _ | _ => _ end] =>
      is_var e; destruct e
  end.

Section InFlight.

Variable H : host.
Variable platform : string.
Variable G : globals.
Variable str_exn : exn -> string.
Variable str_val : pyval -> string.
Variable str_type : pyval -> string.
Variable command_string : list string -> string.

Abbreviation handler_of := (handler platform G str_exn str_val str_type command_string).
Abbreviation step_of :=
  (sys_step H platform G str_exn str_val str_type command_string).
Abbreviation events_of :=
  (run_events H platform G str_exn str_val str_type command_string).

Lemma handler_tidy (r : request) : tidy [] (handler_of r).
Proof.
  destruct r as [q | | q | q |]; unfold handler.
  - unfold fabric. tidy_walk.
  - unfold get_models. tidy_walk.
  - unfold set_model. tidy_walk.
  - unfold yt. tidy_walk.
  - unfold get_patterns. tidy_walk.
Qed.

Lemma run_to_await_tidy {A : Type} (held : list string) (p : prog A) :
  tidy held p ->
  forall w,
    match run_to_await H p held w with
    | (Finished (inr _), held', _) => held' = []
    | (Finished (inl _), _, _) => True
    | (Awaiting _ k, held', _) => forall cp, tidy held' (k cp)
    end.
Proof.
  induction 1 as [a | held e | held argv k Hk _ | held arg k _ IH
                 | held data k _ IHok _ IHerr
                 | held path k _ IHok _ IHerr
                 | held lvl msg k _ IH | held msg k _ IH | held addr port k _ IH];
    intros w; cbn [run_to_await]; auto; try apply IH.
  - destruct (do_tempfile H data w) as [[e | name] w1]; [apply IHerr | apply IHok].
  - destruct (do_unlink path w) as [[e | u] w1]; [apply IHerr | apply IHok].
Qed.

Lemma start_task_tidy (p : prog pyval) (held : list string) (w : world) :
  tidy held p -> task_tidy (fst (start_task H p held w)).
Proof.
  intros Hp. unfold start_task, task_tidy.
  pose proof (run_to_await_tidy held p Hp w) as Hrun.
  destruct (run_to_await H p held w) as [[st held'] w']. cbn.
  destruct st as [[e | v] | argv k]; exact Hrun.
Qed.

Lemma sys_step_tidy (s : system) (ev : event) :
  Forall task_tidy (pool s) -> Forall task_tidy (pool (step_of s ev)).
Proof.
  intros Hall. destruct ev as [r | i cp]; cbn [sys_step].
  - pose proof (start_task_tidy (handler_of r) [] (sys_world s) (handler_tidy r)) as Hnew.
    destruct (start_task H (handler_of r) [] (sys_world s)) as [t w']. cbn in *.
    apply Forall_app. split; [assumption | constructor; [assumption | constructor]].
  - destruct (pool s !! i) as [[st held]|] eqn:Hi; [|assumption].
    destruct st as [res | argv k]; [assumption|].
    pose proof (Forall_lookup_1 _ _ _ _ Hall Hi) as Hti.
    unfold task_tidy in Hti. cbn in Hti.
    pose proof (start_task_tidy (k cp) held (sys_world s) (Hti cp)) as Hnew.
    destruct (start_task H (k cp) held (sys_world s)) as [t w']. cbn in *.
    now apply Forall_insert.
Qed.

Lemma run_events_tidy (evs : list event) (s : system) :
  Forall task_tidy (pool s) -> Forall task_tidy (pool (events_of evs s)).
Proof.
  revert s. induction evs as [|ev evs IH]; intros s Hall; [assumption|].
  cbn. apply IH, sys_step_tidy, Hall.
Qed.

(** However requests interleave, a request that has been answered with a
    result holds no temporary file: on the success path nothing is left
    behind. *)
Theorem answered_request_holds_nothing
    (w0 : world) (evs : list event) (i : nat) (t : task) (v : pyval) :
  pool (events_of evs (boot w0)) !! i = Some t ->
  t_status t = Finished (inr v) ->
  t_held t = [].
Proof.
  intros Hi Hst.
  pose proof (run_events_tidy evs (boot w0) (Forall_nil_2 _)) as Hall.
  pose proof (Forall_lookup_1 _ _ _ _ Hall Hi) as Ht.
  unfold task_tidy in Ht. now rewrite Hst in Ht.
Qed.

(** However requests interleave, the temporary file a request holds
    exists: no other request removes it. *)
Theorem held_file_exists
    (w0 : world) (evs : list event) (i : nat) (t : task) (p : string) :
  pool (events_of evs (boot w0)) !! i = Some t ->
  In p (t_held t) ->
  is_Some (fs (sys_world (events_of evs (boot w0))) !! p).
Proof.
  intros Hi Hp.
  exact (inv_exist _
           (run_events_inv H platform G str_exn str_val str_type command_string
              evs (boot w0) (boot_inv w0))
           i t p Hi Hp).
Qed.

End InFlight.

Lemma answered_request_holds_nothing_witness :
  let s := run_events (Examples.host_ok "summary") "win32" Examples.G Examples.str_exn
             Examples.str_val Examples.str_type Examples.command_string
             [Accept (ReqFabric (Examples.fabric_req "some text"));
              Complete 0 (Examples.ok "summary")]
             (boot empty_world) in
  exists t, pool s !! 0%nat = Some t
            /\ t_status t = Finished (inr (output_json "summary"))
            /\ t_held t = [].
Proof.
  cbv zeta. eexists. split; [reflexivity|]. split; [reflexivity|].
  eapply (answered_request_holds_nothing (Examples.host_ok "summary") "win32"
            Examples.G Examples.str_exn Examples.str_val Examples.str_type
            Examples.command_string empty_world
            [Accept (ReqFabric (Examples.fabric_req "some text"));
             Complete 0 (Examples.ok "summary")] 0%nat).
  - reflexivity.
  - reflexivity.
Defined.

Lemma held_file_exists_witness :
  let s := run_events (Examples.host_ok "summary") "win32" Examples.G Examples.str_exn
             Examples.str_val Examples.str_type Examples.command_string
             [Accept (ReqFabric (Examples.fabric_req "first"));
              Accept (ReqFabric (Examples.fabric_req "second"));
              Complete 1 (Examples.ok "summary")]
             (boot empty_world) in
  map t_held (pool s) = [["/tmp/tmpa"]; []]
  /\ is_Some (fs (sys_world s) !! "/tmp/tmpa").
Proof.
  cbv zeta. split; [reflexivity|].
  eapply (held_file_exists (Examples.host_ok "summary") "win32"
            Examples.G Examples.str_exn Examples.str_val Examples.str_type
            Examples.command_string empty_world
            [Accept (ReqFabric (Examples.fabric_req "first"));
             Accept (ReqFabric (Examples.fabric_req "second"));
             Complete 1 (Examples.ok "summary")] 0%nat).
  - reflexivity.
  - cbn. left. reflexivity.
Defined.

(** ** Paths set at import *)

Lemma all_chars_app (p : ascii -> bool) (s t : string) :
  PyStr.all_chars p (s +:+ t) = PyStr.all_chars p s && PyStr.all_chars p t.
Proof.
  unfold PyStr.all_chars. induction s as [|a s IH]; [reflexivity|].
  cbn [String.append list_ascii_of_string forallb]. now rewrite IH, andb_assoc.
Qed.

Lemma replace_char_free (c : ascii) (new s : string) :
  char_free c new = true ->
  char_free c (PyStr.replace (String c EmptyString) new s) = true.
Proof.
  intros Hnew. unfold PyStr.replace.
  induction s as [|a s IH]; [reflexivity|].
  cbn [PyStr.replace_from String.prefix String.length Nat.sub].
  destruct (ascii_dec c a) as [<- | Hne].
  - unfold char_free in *.
    destruct s; cbn [String.prefix]; rewrite all_chars_app, Hnew; exact IH.
  - unfold char_free, PyStr.all_chars in *.
    cbn [list_ascii_of_string forallb]. rewrite IH, andb_true_r.
    apply negb_true_iff, Ascii.eqb_neq. congruence.
Qed.

(** On the bridged platform the two tool paths set at import contain no
    backslash, whatever the home directory is and whatever [os.path.join]
    returns. *)
Theorem win32_paths_have_no_backslash
    (H : host) (expanduser_home : string)
    (os_path_join : string -> list string -> string) (w w' : world) (g : globals) :
  interp H (module_body "win32" expanduser_home os_path_join) w = (inr g, w') ->
  char_free "\"%char (FABRIC_PATH g) = true /\ char_free "\"%char (YT_PATH g) = true.
Proof.
  cbn. intros [= <- _]. cbn [FABRIC_PATH YT_PATH].
  split; apply replace_char_free; reflexivity.
Qed.

Lemma win32_paths_have_no_backslash_witness :
  let join := fun home parts => PyStr.join "\" (home :: parts) in
  let g := {| HOME_DIR := "\home\alice";
              FABRIC_PATH := "/home/alice/.local/bin/fabric";
              YT_PATH := "/home/alice/.local/bin/yt" |} in
  interp (Examples.host_ok "out") (module_body "win32" "C:\Users\alice" join) empty_world
  = (inr g, empty_world)
  /\ char_free "\"%char (FABRIC_PATH g) = true
  /\ char_free "\"%char (YT_PATH g) = true.
Proof.
  cbv zeta. split; [reflexivity|].
  apply (win32_paths_have_no_backslash (Examples.host_ok "out") "C:\Users\alice"
           (fun home parts => PyStr.join "\" (home :: parts)) empty_world empty_world).
  reflexivity.
Defined.

(** ** [sanitize_for_shell] *)

Lemma append_squote_inj (s t : string) :
  s +:+ Shlex.squote = t +:+ Shlex.squote -> s = t.
Proof.
  revert t. induction s as [|a s IH]; intros [|b t]; cbn; intros Heq.
  - reflexivity.
  - injection Heq as _ Heq. destruct t; discriminate.
  - injection Heq as _ Heq. destruct s; discriminate.
  - injection Heq as -> Heq. now rewrite (IH t Heq).
Qed.

Lemma string_append_assoc (s t u : string) : (s +:+ t) +:+ u = s +:+ (t +:+ u).
Proof.
  induction s as [|a s IH]; [reflexivity|].
  cbn [String.append]. now rewrite IH.
Qed.

Lemma prefix_nil (s : string) : String.prefix EmptyString s = true.
Proof. now destruct s. Qed.

Lemma prefix_app (s t : string) : String.prefix s (s +:+ t) = true.
Proof.
  induction s as [|a s IH]; [apply prefix_nil|].
  cbn [String.append String.prefix]. now destruct (ascii_dec a a).
Qed.

Lemma escape_step (a : ascii) (s : string) :
  PyStr.replace_from Shlex.squote escaped_squote (String a s) 0
  = if Ascii.eqb a "'"%char
    then escaped_squote +:+ PyStr.replace_from Shlex.squote escaped_squote s 0
    else String a (PyStr.replace_from Shlex.squote escaped_squote s 0).
Proof.
  unfold Shlex.squote at 1. cbn [PyStr.replace_from String.prefix].
  rewrite prefix_nil. destruct (ascii_dec "'"%char a) as [<- | Hne].
  - reflexivity.
  - assert (Ha : Ascii.eqb a "'"%char = false) by (apply Ascii.eqb_neq; congruence).
    now rewrite Ha.
Qed.

Lemma unescape_block (rest : string) :
  PyStr.replace_from escaped_squote Shlex.squote (escaped_squote +:+ rest) 0
  = Shlex.squote +:+ PyStr.replace_from escaped_squote Shlex.squote rest 0.
Proof.
  pose proof (prefix_app escaped_squote rest) as Hp.
  unfold escaped_squote, Shlex.squote, Shlex.dquote in *.
  cbn [String.append] in *. cbn [PyStr.replace_from].
  rewrite Hp. reflexivity.
Qed.

Lemma unescape_other (a : ascii) (rest : string) :
  Ascii.eqb a "'"%char = false ->
  PyStr.replace_from escaped_squote Shlex.squote (String a rest) 0
  = String a (PyStr.replace_from escaped_squote Shlex.squote rest 0).
Proof.
  intros Ha. apply Ascii.eqb_neq in Ha.
  unfold escaped_squote at 1, Shlex.squote at 1.
  cbn [String.append PyStr.replace_from String.prefix].
  destruct (ascii_dec "'"%char a) as [Heq | _]; [congruence | reflexivity].
Qed.

(** Undoing the replacement of quotes gives the text back. *)
Lemma unescape_escape (s t : string) :
  PyStr.replace_from escaped_squote Shlex.squote
    (PyStr.replace_from Shlex.squote escaped_squote s 0 +:+ t) 0
  = s +:+ PyStr.replace_from escaped_squote Shlex.squote t 0.
Proof.
  induction s as [|a s IH]; [reflexivity|].
  rewrite escape_step. destruct (Ascii.eqb a "'"%char) eqn:Ha.
  - apply Ascii.eqb_eq in Ha. subst a.
    rewrite string_append_assoc, unescape_block, IH. reflexivity.
  - cbn [String.append]. rewrite (unescape_other a _ Ha), IH. reflexivity.
Qed.

Lemma quoted_inj (s t : string) :
  Shlex.squote +:+ PyStr.replace Shlex.squote escaped_squote s +:+ Shlex.squote
  = Shlex.squote +:+ PyStr.replace Shlex.squote escaped_squote t +:+ Shlex.squote ->
  s = t.
Proof.
  unfold PyStr.replace. unfold Shlex.squote at 1 4. cbn [String.append].
  intros [= Heq].
  apply (f_equal (fun x => PyStr.replace_from escaped_squote Shlex.squote x 0)) in Heq.
  rewrite !unescape_escape in Heq.
  exact (append_squote_inj s t Heq).
Qed.

Lemma quoted_not_safe (s : string) :
  PyStr.all_chars Shlex.safe_char
    (Shlex.squote +:+ PyStr.replace Shlex.squote escaped_squote s +:+ Shlex.squote)
  = false.
Proof. reflexivity. Qed.

(** [sanitize_for_shell] loses nothing: two different values never get
    the same quoted form. *)
Theorem sanitize_for_shell_injective (s t : string) :
  sanitize_for_shell s = sanitize_for_shell t -> s = t.
Proof.
  unfold sanitize_for_shell, Shlex.quote.
  change (Shlex.squote +:+ Shlex.dquote +:+ Shlex.squote +:+ Shlex.dquote +:+ Shlex.squote)
    with escaped_squote.
  destruct (PyStr.truthy s) eqn:Hs; destruct (PyStr.truthy t) eqn:Ht; cbn [negb].
  - destruct (PyStr.all_chars Shlex.safe_char s) eqn:Hss;
      destruct (PyStr.all_chars Shlex.safe_char t) eqn:Hst.
    + auto.
    + intros ->. now rewrite quoted_not_safe in Hss.
    + intros <-. now rewrite quoted_not_safe in Hst.
    + apply quoted_inj.
  - destruct t; [|discriminate Ht].
    destruct (PyStr.all_chars Shlex.safe_char s) eqn:Hss.
    + intros ->. discriminate Hss.
    + intros Heq. apply (quoted_inj s EmptyString) in Heq. subst s. discriminate Hs.
  - destruct s; [|discriminate Hs].
    destruct (PyStr.all_chars Shlex.safe_char t) eqn:Hst.
    + intros <-. discriminate Hst.
    + intros Heq. apply (quoted_inj EmptyString t) in Heq. subst t. discriminate Ht.
  - destruct s; [|discriminate Hs]. destruct t; [|discriminate Ht]. reflexivity.
Qed.

Lemma sanitize_for_shell_injective_witness :
  sanitize_for_shell "it's" = "'it'" +:+ Shlex.dquote +:+ "'" +:+ Shlex.dquote +:+ "'s'"
  /\ "it's" = "it's".
Proof.
  split; [reflexivity|].
  exact (sanitize_for_shell_injective "it's" "it's" eq_refl).
Defined.

(** ** Bridged command lines, value by value *)

Lemma fabric_command_skeleton_witness :
  outside_quotes
    (fabric_powershell_command "/home/u/.local/bin/fabric" "/tmp/tmpa"
       (Examples.fabric_req "some text"))
  = "gc  | wsl -e /home/u/.local/bin/fabric -sp  --model ".
Proof.
  apply (fabric_command_skeleton "/home/u/.local/bin/fabric" "/tmp/tmpa"
           (Examples.fabric_req "some text")); reflexivity.
Defined.

(** In the bridged [yt] command the path and the pattern stay inside
    literals when they hold no quote, but the model never does: whatever
    it is, its text is parsed by PowerShell as part of the command. *)
Theorem yt_command_model_is_syntax (FABRIC_PATH path : string) (request : YTRequest) :
  quote_free path = true ->
  quote_free FABRIC_PATH = true ->
  quote_free (yt_pattern request) = true ->
  outside_quotes (yt_powershell_command FABRIC_PATH path request)
  = "gc  | wsl -e " +:+ FABRIC_PATH +:+ " -sp  --model "
    +:+ outside_quotes (yt_model request).
Proof.
  intros Hpath Hfabric Hpattern.
  unfold outside_quotes, yt_powershell_command. cbn.
  rewrite (outside_quotes_from_app_quote_free true path _ Hpath). cbn.
  rewrite (outside_quotes_from_app_quote_free false FABRIC_PATH _ Hfabric).
  f_equal. cbn.
  rewrite (outside_quotes_from_app_quote_free true _ _ Hpattern). reflexivity.
Qed.

Lemma yt_command_model_is_syntax_witness :
  outside_quotes
    (yt_powershell_command "/home/u/.local/bin/fabric" "/tmp/tmpa"
       Examples.injecting_yt_req)
  = "gc  | wsl -e /home/u/.local/bin/fabric -sp  --model m; calc".
Proof.
  apply (yt_command_model_is_syntax "/home/u/.local/bin/fabric" "/tmp/tmpa"
           Examples.injecting_yt_req); reflexivity.
Defined.

(** In the bridged [set_model] command a model without quotes stays
    inside its literal. *)
Theorem set_model_command_skeleton (FABRIC_PATH : string) (request : Model) :
  quote_free FABRIC_PATH = true ->
  quote_free (model_model request) = true ->
  outside_quotes (set_model_powershell_command FABRIC_PATH request)
  = "wsl -e " +:+ FABRIC_PATH +:+ " --changeDefaultModel ".
Proof.
  intros Hfabric Hmodel.
  unfold outside_quotes, set_model_powershell_command. cbn.
  rewrite (outside_quotes_from_app_quote_free false FABRIC_PATH _ Hfabric).
  f_equal. cbn.
  rewrite (outside_quotes_from_app_quote_free true _ _ Hmodel). reflexivity.
Qed.

Lemma set_model_command_skeleton_witness :
  outside_quotes
    (set_model_powershell_command "/home/u/.local/bin/fabric" {| model_model := "gpt-4; calc" |})
  = "wsl -e /home/u/.local/bin/fabric --changeDefaultModel ".
Proof.
  apply (set_model_command_skeleton "/home/u/.local/bin/fabric"
           {| model_model := "gpt-4; calc" |}); reflexivity.
Defined.

(** ** The server handle *)

Lemma stop_api_server_iter (n : nat) (c : control) :
  let line := match server c with
              | Some _ => (INFO, "Stopping API server")
              | None => (WARNING, "Attempted to stop API server, but it was not running")
              end in
  control_log (Nat.iter n stop_api_server c) = control_log c ++ repeat line n
  /\ (server (Nat.iter n stop_api_server c) = None <-> server c = None).
Proof.
  cbv zeta. induction n as [|n [IHl IHs]].
  - cbn. now rewrite app_nil_r.
  - rewrite Nat.iter_succ. set (cn := Nat.iter n stop_api_server c) in *.
    unfold stop_api_server.
    destruct (server cn) as [sv|] eqn:Hn;
      destruct (server c) as [sv0|] eqn:Hc; cbn [control_log server].
    + rewrite IHl, <- app_assoc, <- repeat_cons. split; [reflexivity|].
      split; discriminate.
    + destruct IHs as [_ IHs]. discriminate (IHs eq_refl).
    + destruct IHs as [IHs _]. discriminate (IHs eq_refl).
    + rewrite IHl, <- app_assoc, <- repeat_cons. split; [reflexivity|].
      split; reflexivity.
Qed.

(** Stopping is safe to repeat.  Once a server is set, every stop logs
    the same line and leaves the handle set with [should_exit] raised; the
    handle is never cleared.  While none is set, every stop logs the
    warning and changes nothing else. *)
Theorem stop_api_server_repeated (n : nat) (c : control) :
  let c' := Nat.iter (S n) stop_api_server c in
  match server c with
  | Some _ =>
      server c' = Some {| should_exit := true |}
      /\ control_log c' = control_log c ++ repeat (INFO, "Stopping API server") (S n)
  | None =>
      server c' = None
      /\ control_log c'
         = control_log c
           ++ repeat (WARNING, "Attempted to stop API server, but it was not running")
                (S n)
  end.
Proof.
  cbv zeta. destruct (stop_api_server_iter (S n) c) as [Hlog _].
  destruct (stop_api_server_iter n c) as [_ Hset].
  cbv zeta in Hlog. rewrite Nat.iter_succ in *.
  set (cn := Nat.iter n stop_api_server c) in *.
  destruct (server c) as [sv0|] eqn:Hc.
  - split; [|exact Hlog]. unfold stop_api_server.
    destruct (server cn) as [sv|] eqn:Hn; [reflexivity|].
    destruct Hset as [Hset _]. discriminate (Hset eq_refl).
  - split; [|exact Hlog]. unfold stop_api_server.
    destruct Hset as [_ Hset]. now rewrite (Hset eq_refl).
Qed.

(** A stop before any start sets no handle, and a start after it begins
    with [should_exit] lowered. *)
Example stop_then_start :
  let c0 := {| server := None; control_log := [] |} in
  server (stop_api_server c0) = None
  /\ server (start_api_server_handle (stop_api_server c0))
     = Some {| should_exit := false |}.
Proof. split; reflexivity. Qed.

(** ** Blank names *)

Lemma lstrip_empty_iff (s : string) :
  PyStr.lstrip s = EmptyString <-> PyStr.all_chars PyStr.isspace s = true.
Proof.
  unfold PyStr.all_chars. induction s as [|c s IH]; [easy|].
  cbn [PyStr.lstrip list_ascii_of_string forallb].
  destruct (PyStr.isspace c); cbn [andb]; [exact IH | easy].
Qed.

Lemma lstrip_head (s r : string) (c : ascii) :
  PyStr.lstrip s = String c r -> PyStr.isspace c = false.
Proof.
  induction s as [|a s IH]; [discriminate|].
  cbn [PyStr.lstrip]. destruct (PyStr.isspace a) eqn:Ha; [exact IH|].
  now intros [= <- _].
Qed.

Lemma rstrip_keeps_visible_head (c : ascii) (r : string) :
  PyStr.isspace c = false -> PyStr.rstrip (String c r) <> EmptyString.
Proof.
  intros Hc. cbn [PyStr.rstrip]. rewrite Hc.
  destruct (PyStr.rstrip r); discriminate.
Qed.

(** A name counts as blank, and its record is dropped, exactly when every
    character of it is white space; the empty name is one of them. *)
Theorem blank_iff_whitespace (s : string) :
  Models.is_blank s = true <-> PyStr.all_chars PyStr.isspace s = true.
Proof.
  rewrite <- lstrip_empty_iff. unfold Models.is_blank, PyStr.strip.
  destruct (PyStr.lstrip s) as [|c r] eqn:Hl.
  - easy.
  - pose proof (rstrip_keeps_visible_head c r (lstrip_head s r c Hl)) as Hne.
    destruct (PyStr.rstrip (String c r)); [contradiction | easy].
Qed.

(** ** The first stage of [yt] *)

(** When the transcript fetch fails, on either platform, no second child
    is spawned, no file is written, and the answer is 500 with the text of
    that failure. *)
Theorem yt_first_stage_failure
    (H : host) (FABRIC_PATH YT_PATH : string) (str_exn : exn -> string)
    (command_string : list string -> string)
    (platform : string) (request : YTRequest) (w : world) :
  platform = "darwin" \/ platform = "win32" ->
  let first := yt_first_argv platform YT_PATH request in
  let cp := os_exec H (yt_first_world first request w) first in
  returncode cp <> 0 ->
  let res := interp H (yt platform FABRIC_PATH YT_PATH str_exn command_string request) w in
  fst res = inl (HTTPException 500 (str_exn (failure_of command_string first cp)))
  /\ calls (snd res) = calls w ++ [first]
  /\ fs (snd res) = fs w.
Proof.
  intros [-> | ->]; cbv zeta; intros Hrc; apply Z.eqb_neq in Hrc;
    unfold yt, yt_first_argv, yt_first_world, failure_of, http_500 in *;
    cbn in *; rewrite Hrc; cbn; repeat split; reflexivity.
Qed.

Lemma yt_first_stage_failure_witness :
  let first := ["wsl"; "-e"; YT_PATH Examples.G; yt_url Examples.yt_req] in
  let res := interp Examples.host_failing
               (yt "win32" (FABRIC_PATH Examples.G) (YT_PATH Examples.G)
                  Examples.str_exn Examples.command_string Examples.yt_req)
               empty_world in
  fst res = inl (HTTPException 500
                   (Examples.str_exn
                      (CalledProcessError 2 (Examples.command_string first) "boom")))
  /\ calls (snd res) = calls empty_world ++ [first]
  /\ fs (snd res) = fs empty_world.
Proof.
  apply (yt_first_stage_failure Examples.host_failing (FABRIC_PATH Examples.G)
           (YT_PATH Examples.G) Examples.str_exn Examples.command_string
           "win32" Examples.yt_req empty_world).
  - right. reflexivity.
  - cbn. lia.
Defined.
